(** * Miner control application: request orchestration, sessions, schedule

    A shallow embedding of [src/miner_control_app.py] (class
    [MinerControlApp]) and the properties of its request executor
    ([make_request]), session manager ([login], [logout]), setters
    ([set_profile], [set_curtail]), schedule resolver ([determine_mode]),
    device cycle runner ([process_miner]) and fleet scheduler ([start]).

    The program talks to the outside world through [requests.post],
    [datetime.now], [time.sleep], the logger and [print].  The replies of
    the first two are given by oracles (the n-th call gets the n-th
    reply), the others are recorded in a trace.  Python exceptions are a
    constructor of the result type, so [try]/[except] is a function. *)

From Stdlib Require Import ZArith List String Bool Lia.
From stdpp Require Import gmap strings.
Import ListNotations.

Local Open Scope string_scope.
Local Open Scope list_scope.
Local Open Scope Z_scope.

(** ** Python values that travel in JSON bodies *)

#[local] Set Warnings "-register-all".

Inductive json : Type :=
| JNone                               (* None, JSON null *)
| JBool (b : bool)
| JInt (n : Z)                        (* numbers are taken to be integers *)
| JStr (s : string)
| JList (l : list json)
| JDict (d : list (string * json)).   (* a dict, first binding of a key wins *)

(** A dict literal such as [{'miner_ip': miner_ip}]. *)
Abbreviation dict := (list (string * json)).

(** [bool(v)]: the truth value Python gives [v] in [if v:]. *)
Definition truthy (v : json) : bool :=
  match v with
  | JNone => false
  | JBool b => b
  | JInt n => negb (n =? 0)
  | JStr s => negb (String.eqb s "")
  | JList l => match l with [] => false | _ :: _ => true end
  | JDict d => match d with [] => false | _ :: _ => true end
  end.

Fixpoint assoc (k : string) (d : dict) : option json :=
  match d with
  | [] => None
  | (k', v) :: d' => if String.eqb k k' then Some v else assoc k d'
  end.

(** [needle in s] for two strings. *)
Fixpoint is_substring (needle s : string) : bool :=
  String.prefix needle s ||
  match s with
  | EmptyString => false
  | String _ s' => is_substring needle s'
  end.

(** ** Exceptions and results *)

Inductive exn : Type :=
| RequestException     (* requests.RequestException and its transport subclasses *)
| JSONDecodeError      (* raised by Response.json() on a body that is not JSON *)
| AttributeError
| TypeError
| ValueError
| UnboundLocalError.

(** The outcome of running a piece of the program: a value, a raised
    exception, or [OutOfFuel] when the bound on recursive calls or loop
    rounds given to the model was reached before the code finished. *)
Inductive result (A : Type) : Type :=
| Ok (a : A)
| Raise (e : exn)
| OutOfFuel.
Arguments Ok {A} a.
Arguments Raise {A} e.
Arguments OutOfFuel {A}.

(** [v.get(k, default)]: only a dict has [get]. *)
Definition py_get (v : json) (k : string) (default : json) : result json :=
  match v with
  | JDict d => Ok (match assoc k d with Some x => x | None => default end)
  | _ => Raise AttributeError
  end.

(** [needle in hay] where [needle] is a string: substring of a string,
    element of a list, key of a dict, [TypeError] otherwise. *)
Definition py_in (needle : string) (hay : json) : result bool :=
  match hay with
  | JStr s => Ok (is_substring needle s)
  | JList l =>
      Ok (existsb (fun x => match x with JStr t => String.eqb needle t | _ => false end) l)
  | JDict d => Ok (existsb (fun kv => String.eqb needle (fst kv)) d)
  | JNone | JBool _ | JInt _ => Raise TypeError
  end.

(** [any(error in hay for error in errors)], left to right, stopping at
    the first hit. *)
Fixpoint py_any_in (errors : list string) (hay : json) : result bool :=
  match errors with
  | [] => Ok false
  | e :: errors' =>
      match py_in e hay with
      | Ok true => Ok true
      | Ok false => py_any_in errors' hay
      | Raise x => Raise x
      | OutOfFuel => OutOfFuel
      end
  end.

(** ** HTTP responses *)

(** A [requests.Response]: the status, the raw body and what the JSON
    decoder makes of that body ([None]: it is not JSON). *)
Record response : Type := Response {
  status_code : Z;
  content : string;
  decoded : option json
}.

Definition response_json (r : response) : result json :=
  match decoded r with
  | Some v => Ok v
  | None => Raise JSONDecodeError
  end.

(** [bool(response)] is [response.ok]: false exactly for 4xx and 5xx. *)
Definition response_ok (r : response) : bool :=
  negb ((400 <=? status_code r) && (status_code r <? 600)).

(** What [requests.post] does: raise, or return a response. *)
Inductive post_result : Type :=
| PostRaises (e : exn)
| PostReturns (r : response).

(** What [make_request] returns: a response object, the string
    ['unauthorized'], or [None]. *)
Inductive request_result : Type :=
| RResponse (r : response)
| RUnauthorized
| RNone.

(** [bool(x)] for a value returned by [make_request]. *)
Definition result_truthy (x : request_result) : bool :=
  match x with
  | RResponse r => response_ok r
  | RUnauthorized => true
  | RNone => false
  end.

(** Lines 61-62: the response is mutated in place to mark an ignored error. *)
Definition mark_ignored (r : response) : response :=
  {| status_code := 100;
     content := "Ignoring error due to it is being set already";
     decoded := None |}.

(** ** Time *)

(** A UTC [datetime]: the day as a day number, and the time of day. *)
Record datetime : Type := Datetime {
  day : Z;
  hour : Z;
  minute : Z;
  second : Z;
  microsecond : Z
}.

Definition valid_datetime (d : datetime) : Prop :=
  0 <= hour d < 24 /\ 0 <= minute d < 60 /\ 0 <= second d < 60 /\
  0 <= microsecond d < 1000000.

(** Microseconds since the start of day 0. *)
Definition to_micros (d : datetime) : Z :=
  (((day d * 24 + hour d) * 60 + minute d) * 60 + second d) * 1000000 + microsecond d.

(** [d.replace(hour=h, minute=0, second=0, microsecond=0)] *)
Definition replace_hour (d : datetime) (h : Z) : datetime :=
  {| day := day d; hour := h; minute := 0; second := 0; microsecond := 0 |}.

(** [d + timedelta(days=n)] *)
Definition add_days (d : datetime) (n : Z) : datetime :=
  {| day := day d + n; hour := hour d; minute := minute d;
     second := second d; microsecond := microsecond d |}.

(** [(a - b)] as a number of microseconds; [total_seconds()] is this
    number divided by 10^6. *)
Definition micros_between (a b : datetime) : Z := to_micros a - to_micros b.

(** A whole number of seconds, in microseconds. *)
Definition seconds (n : Z) : Z := n * 1000000.

(** The schedule resolver as the specification words it: the start of
    the band that follows the one [now] is in, that is 06:00, 12:00 or
    18:00 of the same day, or midnight of the following day. *)
Definition next_band_start (now : datetime) : datetime :=
  if hour now <? 6 then replace_hour now 6
  else if hour now <? 12 then replace_hour now 12
  else if hour now <? 18 then replace_hour now 18
  else add_days (replace_hour now 0) 1.

(** ** The trace of observable actions *)

(** One constructor per message of the source; the comment gives the
    logging level. *)
Inductive log_msg : Type :=
| LStatus (status : Z)                                   (* debug, line 50 *)
| LIgnoring (error_message : json)                       (* info, line 60 *)
| LUnauthorizedRequest (url : string)                    (* warning, line 67 *)
| LFailedRequest (url : string) (text : string)          (* warning, line 71 *)
| LRequestError (url : string) (e : exn) (attempt retries : Z)  (* error, line 75 *)
| LRequestGaveUp (url : string) (retries : Z)            (* error, line 80 *)
| LLoginOk (miner_ip : string)                           (* info *)
| LLoginNoToken (miner_ip : string)                      (* error *)
| LLoginFailed (miner_ip : string) (retries : Z)         (* error *)
| LLogoutOk (miner_ip : string)                          (* info *)
| LLogoutFailed (miner_ip : string) (retries : Z)        (* error *)
| LUnauthorizedToken (miner_ip : string)                 (* warning *)
| LProfileOk (miner_ip : string) (profile : string)      (* info *)
| LProfileFailed (miner_ip : string) (retries : Z)       (* error *)
| LCurtailOk (miner_ip : string) (mode : string)         (* info *)
| LCurtailFailed (miner_ip : string) (retries : Z)       (* error *)
| LErrCurtail (miner_ip : string) (e : exn)              (* error, line 221 *)
| LErrProfile (miner_ip : string) (e : exn)              (* error, line 226 *)
| LErrLogout (miner_ip : string) (e : exn)               (* error, line 231 *)
| LNoTokenSkip (miner_ip : string)                       (* error, line 233 *)
| LErrProcessing (miner_ip : string) (e : exn)           (* error, line 235 *)
| LCurrentTime (now : datetime)                          (* info *)
| LCycleDone (sleep_micros : Z).                         (* info *)

(** Entry into a method of [MinerControlApp], with its arguments.  The
    source has no such action: the entries are recorded so that calls
    can be counted. *)
Inductive call : Type :=
| CMakeRequest (url : string) (data : dict) (retries : Z)
               (re_login_on_unauthorized : bool) (ignore_errors : list string)
| CLogin (miner_ip : string)
| CLogout (miner_ip : string)
| CSetProfile (miner_ip : string) (token : json) (profile : string)
| CSetCurtail (miner_ip : string) (token : json) (mode : string)
| CDetermineMode
| CProcessMiner (miner_ip : string).

Inductive event : Type :=
| EPost (url : string) (data : dict)      (* requests.post(url, json=data, timeout=5) *)
| ESleep (micros : Z)                     (* time.sleep *)
| ELog (m : log_msg)                      (* self.logger.<level>(...) *)
| EPrint (m : log_msg)                    (* print(...) of the same text *)
| ECall (c : call).

(** ** Program state *)

(** An entry of [self.miner_tokens]: [{'token': token, 'ttl': ttl}]. *)
Record token_entry : Type := TokenEntry {
  entry_token : json;
  entry_ttl : json
}.

Record state : Type := State {
  posts : nat;                               (* calls to requests.post so far *)
  clock_reads : nat;                         (* calls to datetime.now so far *)
  miner_tokens : gmap string token_entry;    (* self.miner_tokens *)
  trace : list event                         (* oldest first *)
}.

Definition initial_state : state :=
  {| posts := 0; clock_reads := 0; miner_tokens := ∅; trace := [] |}.

(** ** The monad of the program: state and exceptions *)

Definition M (A : Type) : Type := state -> result A * state.

Definition ret {A} (a : A) : M A := fun st => (Ok a, st).

Definition bind {A B} (m : M A) (k : A -> M B) : M B :=
  fun st =>
    match m st with
    | (Ok a, st') => k a st'
    | (Raise e, st') => (Raise e, st')
    | (OutOfFuel, st') => (OutOfFuel, st')
    end.

Definition raise {A} (e : exn) : M A := fun st => (Raise e, st).

Definition out_of_fuel {A} : M A := fun st => (OutOfFuel, st).

(** A pure computation that may raise. *)
Definition lift {A} (r : result A) : M A := fun st => (r, st).

Declare Scope prog_scope.
Delimit Scope prog_scope with prog.
Notation "x <- m ;; k" := (bind m (fun x => k))
  (at level 100, m at next level, right associativity) : prog_scope.
Notation "m ;; k" := (bind m (fun _ => k))
  (at level 100, right associativity) : prog_scope.
Local Open Scope prog_scope.

(** [try: body / except <classes> as e: handler e]: [handler e] is
    [None] when the clause does not match the class of [e]. *)
Definition try_except {A} (body : M A) (handler : exn -> option (M A)) : M A :=
  fun st =>
    match body st with
    | (Raise e, st') =>
        match handler e with
        | Some h => h st'
        | None => (Raise e, st')
        end
    | other => other
    end.

(** [try: body / except Exception as e: handler e] *)
Definition try_except_Exception {A} (body : M A) (handler : exn -> M A) : M A :=
  try_except body (fun e => Some (handler e)).

Definition emit (e : event) : M unit :=
  fun st => (Ok tt, {| posts := posts st; clock_reads := clock_reads st;
                       miner_tokens := miner_tokens st; trace := trace st ++ [e] |}).

Definition log (m : log_msg) : M unit := emit (ELog m).
Definition print (m : log_msg) : M unit := emit (EPrint m).
(** A logger call followed by a [print] of the same text. *)
Definition report (m : log_msg) : M unit := log m ;; print m.
Definition enter (c : call) : M unit := emit (ECall c).

(** [time.sleep(t)]: a negative length raises [ValueError]. *)
Definition time_sleep (micros : Z) : M unit :=
  if micros <? 0 then raise ValueError else emit (ESleep micros).

Definition get_tokens : M (gmap string token_entry) :=
  fun st => (Ok (miner_tokens st), st).

Definition set_tokens (m : gmap string token_entry) : M unit :=
  fun st => (Ok tt, {| posts := posts st; clock_reads := clock_reads st;
                       miner_tokens := m; trace := trace st |}).

(** How a round of a [for] loop ends: the body fell through to the next
    round, or it executed [return v]. *)
Inductive flow (A : Type) : Type :=
| Next
| Return (v : A).
Arguments Next {A}.
Arguments Return {A} v.

(** [for x in xs: body x] where [body] may [return]. *)
Fixpoint for_each {X A} (body : X -> M (flow A)) (xs : list X) : M (flow A) :=
  match xs with
  | [] => ret Next
  | x :: xs' =>
      fl <- body x ;;
      match fl with
      | Return v => ret (Return v)
      | Next => for_each body xs'
      end
  end.

(** [range(n)] *)
Definition range (n : Z) : list nat := seq 0 (Z.to_nat n).

(** ** Worlds used in the examples *)

(** Replies given in order; once they are used up the network is down. *)
Definition script (replies : list post_result) : nat -> post_result :=
  fun n => nth n replies (PostRaises RequestException).

(** Clock readings given in order; the clock then stays at [last]. *)
Definition readings (times : list datetime) (last : datetime) : nat -> datetime :=
  fun n => nth n times last.

(** A response with a JSON body, and the reply that hands it back. *)
Definition json_response (status : Z) (body : json) : response :=
  {| status_code := status; content := ""; decoded := Some body |}.

Definition reply (status : Z) (body : json) : post_result :=
  PostReturns (json_response status body).

Definition miner : string := "192.168.0.1".

(** 200 with a token and no ttl. *)
Definition token_body : dict := [("token", JStr "fresh")].
Definition token_reply : post_result := reply 200 (JDict token_body).

(** 200 with an empty object. *)
Definition done_reply : post_result := reply 200 (JDict []).

(** 401 from a device that rejects the token. *)
Definition unauthorized_reply : post_result :=
  reply 401 (JDict [("message", JStr "Unauthorized")]).

(** 400 from a device that already is in the requested state. *)
Definition already_message : string := "Miner is already in normal profile.".
Definition already_body : dict := [("message", JStr already_message)].
Definition already_response : response := json_response 400 (JDict already_body).


(** 500 whose message is a number: the test [error in error_message]
    raises [TypeError]. *)
Definition odd_reply : post_result := reply 500 (JDict [("message", JInt 5)]).

(** A batch that ends one second after the transition computed before
    it: the clock reads 05:59:59 twice in [start], 06:00:00 twice in
    [process_miner], then 06:00:01. *)
Definition late_clock : nat -> datetime :=
  readings [Datetime 0 5 59 59 0; Datetime 0 5 59 59 0;
            Datetime 0 6 0 0 0; Datetime 0 6 0 0 0]
           (Datetime 0 6 0 1 0).

(** One miner whose four requests succeed at once. *)
Definition smooth_cycle : nat -> post_result :=
  script [token_reply; done_reply; done_reply; done_reply].

(** ** The class [MinerControlApp] *)

Section MinerControlApp.

(** The world: the reply to the n-th [requests.post], the n-th reading of
    the UTC clock, and whether the installed [requests] makes the error of
    [Response.json()] a [RequestException] (it does from 2.27 on). *)
Variable responses : nat -> post_result.
Variable clock : nat -> datetime.
Variable json_error_is_request_exception : bool.

(** The arguments of [__init__]. *)
Variable miner_ips : list string.
Variable max_workers : Z.
Variable max_retries : Z.

Definition base_url : string := "http://127.0.0.1:5000/api".

(** [isinstance(e, requests.RequestException)] *)
Definition is_RequestException (e : exn) : bool :=
  match e with
  | RequestException => true
  | JSONDecodeError => json_error_is_request_exception
  | AttributeError | TypeError | ValueError | UnboundLocalError => false
  end.

(** [requests.post(url, json=data, timeout=5)] *)
Definition requests_post (url : string) (data : dict) : M response :=
  fun st =>
    let st' := {| posts := S (posts st); clock_reads := clock_reads st;
                  miner_tokens := miner_tokens st;
                  trace := trace st ++ [EPost url data] |} in
    match responses (posts st) with
    | PostRaises e => (Raise e, st')
    | PostReturns r => (Ok r, st')
    end.

(** [datetime.now(timezone.utc)] *)
Definition datetime_now : M datetime :=
  fun st =>
    (Ok (clock (clock_reads st)),
     {| posts := posts st; clock_reads := S (clock_reads st);
        miner_tokens := miner_tokens st; trace := trace st |}).

(** *** make_request (lines 30-81) *)

(** The body of the [try] block, lines 49-72. *)
Definition make_request_try (url : string) (data : dict)
    (re_login_on_unauthorized : bool) (ignore_errors : list string)
  : M (flow request_result) :=
  response <- requests_post url data ;;
  log (LStatus (status_code response)) ;;
  if status_code response =? 200 then ret (Return (RResponse response))
  else
    response_json <- lift (response_json response) ;;
    error_message <- lift (py_get response_json "message" (JStr "")) ;;
    ignored <- lift (py_any_in ignore_errors error_message) ;;
    if ignored then
      log (LIgnoring error_message) ;;
      ret (Return (RResponse (mark_ignored response)))
    else if (status_code response =? 401) && re_login_on_unauthorized then
      log (LUnauthorizedRequest url) ;;
      ret (Return RUnauthorized)
    else
      report (LFailedRequest url (content response)) ;;
      ret Next.

(** One round of the loop, lines 48-78: the [try] statement, then the
    sleep that every round reaches unless it returned or raised. *)
Definition make_request_attempt (url : string) (data : dict) (retries : Z)
    (re_login_on_unauthorized : bool) (ignore_errors : list string)
    (attempt : nat) : M (flow request_result) :=
  fl <- try_except
          (make_request_try url data re_login_on_unauthorized ignore_errors)
          (fun e =>
             if is_RequestException e
             then Some (report (LRequestError url e (Z.of_nat attempt + 1) retries) ;;
                        ret Next)
             else None) ;;
  match fl with
  | Return v => ret (Return v)
  | Next => time_sleep (seconds (2 ^ Z.of_nat attempt)) ;; ret Next
  end.

Definition make_request (url : string) (data : dict) (retries : Z)
    (re_login_on_unauthorized : bool) (ignore_errors : list string)
  : M request_result :=
  enter (CMakeRequest url data retries re_login_on_unauthorized ignore_errors) ;;
  fl <- for_each
          (make_request_attempt url data retries re_login_on_unauthorized ignore_errors)
          (range retries) ;;
  match fl with
  | Return v => ret v
  | Next => log (LRequestGaveUp url retries) ;; ret RNone
  end.

(** *** login (lines 83-107)

    Runs are sequential here, so [with self.lock] is not modelled. *)

Definition login (miner_ip : string) : M json :=
  enter (CLogin miner_ip) ;;
  response <- make_request (base_url +:+ "/login") [("miner_ip", JStr miner_ip)]
                           max_retries false [] ;;
  if result_truthy response then
    match response with
    | RResponse r =>
        token_data <- lift (response_json r) ;;
        token <- lift (py_get token_data "token" JNone) ;;
        ttl <- lift (py_get token_data "ttl" JNone) ;;
        if truthy token then
          tokens <- get_tokens ;;
          set_tokens (<[miner_ip := {| entry_token := token; entry_ttl := ttl |}]> tokens) ;;
          report (LLoginOk miner_ip) ;;
          ret token
        else
          report (LLoginNoToken miner_ip) ;;
          ret JNone
    | RUnauthorized => raise AttributeError     (* a str has no json() *)
    | RNone => ret JNone                        (* None is not truthy *)
    end
  else
    report (LLoginFailed miner_ip max_retries) ;;
    ret JNone.

(** *** logout (lines 109-127) *)

Definition logout (miner_ip : string) : M unit :=
  enter (CLogout miner_ip) ;;
  response <- make_request (base_url +:+ "/logout") [("miner_ip", JStr miner_ip)]
                           max_retries false [] ;;
  if result_truthy response then
    tokens <- get_tokens ;;
    (match tokens !! miner_ip with
     | Some _ => set_tokens (delete miner_ip tokens)
     | None => ret tt
     end) ;;
    report (LLogoutOk miner_ip)
  else
    report (LLogoutFailed miner_ip max_retries).

(** *** set_profile and set_curtail (lines 129-177)

    Both call themselves after a successful re-login; [fuel] bounds the
    number of nested calls. *)

Definition already_in : list string := ["Miner is already in"].

Fixpoint set_profile (fuel : nat) (miner_ip : string) (token : json) (profile : string)
  : M unit :=
  match fuel with
  | O => out_of_fuel
  | S fuel' =>
      enter (CSetProfile miner_ip token profile) ;;
      response <- make_request (base_url +:+ "/profileset")
                               [("token", token); ("profile", JStr profile)]
                               max_retries true already_in ;;
      match response with
      | RUnauthorized =>
          report (LUnauthorizedToken miner_ip) ;;
          token' <- login miner_ip ;;
          if truthy token' then set_profile fuel' miner_ip token' profile
          else ret tt
      | _ =>
          if result_truthy response then report (LProfileOk miner_ip profile)
          else report (LProfileFailed miner_ip max_retries)
      end
  end.

Fixpoint set_curtail (fuel : nat) (miner_ip : string) (token : json) (mode : string)
  : M unit :=
  match fuel with
  | O => out_of_fuel
  | S fuel' =>
      enter (CSetCurtail miner_ip token mode) ;;
      response <- make_request (base_url +:+ "/curtail")
                               [("token", token); ("mode", JStr mode)]
                               max_retries true already_in ;;
      match response with
      | RUnauthorized =>
          report (LUnauthorizedToken miner_ip) ;;
          token' <- login miner_ip ;;
          if truthy token' then set_curtail fuel' miner_ip token' mode
          else ret tt
      | _ =>
          if result_truthy response then report (LCurtailOk miner_ip mode)
          else report (LCurtailFailed miner_ip max_retries)
      end
  end.

(** *** determine_mode (lines 179-199)

    The clock is read once for [current_hour] and once more in the branch
    taken, for the date of [next_transition]. *)

Definition determine_mode : M (string * string * datetime) :=
  enter CDetermineMode ;;
  now <- datetime_now ;;
  let current_hour := hour now in
  if (0 <=? current_hour) && (current_hour <? 6) then
    now' <- datetime_now ;;
    ret ("overclock", "active", replace_hour now' 6)
  else if (6 <=? current_hour) && (current_hour <? 12) then
    now' <- datetime_now ;;
    ret ("normal", "active", replace_hour now' 12)
  else if (12 <=? current_hour) && (current_hour <? 18) then
    now' <- datetime_now ;;
    ret ("underclock", "active", replace_hour now' 18)
  else
    now' <- datetime_now ;;
    ret ("normal", "sleep", add_days (replace_hour now' 0) 1).

(** *** process_miner (lines 201-235)

    [profile] is a local variable bound inside the first inner [try]; it
    stays unbound when [determine_mode] raises, and bound when only
    [set_curtail] raises.  The clause of line 220 therefore appears
    twice: around the call of [set_curtail], where [profile] is bound,
    and around the whole block. *)

Definition process_miner (fuel : nat) (miner_ip : string) : M unit :=
  enter (CProcessMiner miner_ip) ;;
  try_except_Exception
    (token <- login miner_ip ;;
     if truthy token then
       profile_var <-
         try_except_Exception
           (dm <- determine_mode ;;
            let '(profile, curtail_mode, _) := dm in
            try_except_Exception
              (set_curtail fuel miner_ip token curtail_mode ;; ret (Some profile))
              (fun e => log (LErrCurtail miner_ip e) ;; ret (Some profile)))
           (fun e => log (LErrCurtail miner_ip e) ;; ret None) ;;
       try_except_Exception
         (match profile_var with
          | Some profile => set_profile fuel miner_ip token profile
          | None => raise UnboundLocalError
          end)
         (fun e => log (LErrProfile miner_ip e)) ;;
       try_except_Exception
         (logout miner_ip)
         (fun e => log (LErrLogout miner_ip e))
     else
       log (LNoTokenSkip miner_ip))
    (fun e => log (LErrProcessing miner_ip e)).

(** *** start (lines 237-263)

    The pool is modelled by its sequential schedule: the miners are
    processed one after the other, in the order of [miner_ips], and the
    [with] block ends when all are done.  [ThreadPoolExecutor] refuses a
    pool size that is not positive. *)

Fixpoint run_batch (fuel : nat) (ips : list string) : M unit :=
  match ips with
  | [] => ret tt
  | miner_ip :: ips' => process_miner fuel miner_ip ;; run_batch fuel ips'
  end.

Definition thread_pool_map (fuel : nat) : M unit :=
  if max_workers <=? 0 then raise ValueError
  else run_batch fuel miner_ips.

(** [rounds] bounds the number of rounds of [while True]; [cycle_count]
    is the local variable of that name. *)
Fixpoint start_loop (rounds fuel : nat) (cycles : option Z) (cycle_count : Z) : M unit :=
  match rounds with
  | O => out_of_fuel
  | S rounds' =>
      dm <- determine_mode ;;
      let '(_, _, next_transition) := dm in
      thread_pool_map fuel ;;
      now <- datetime_now ;;
      let sleep_time := micros_between next_transition now in
      now' <- datetime_now ;;
      report (LCurrentTime now') ;;
      report (LCycleDone sleep_time) ;;
      match cycles with
      | Some n =>
          let cycle_count := cycle_count + 1 in
          if cycle_count >=? n then ret tt
          else time_sleep sleep_time ;; start_loop rounds' fuel cycles cycle_count
      | None =>
          time_sleep sleep_time ;; start_loop rounds' fuel cycles cycle_count
      end
  end.

Definition start (rounds fuel : nat) (cycles : option Z) : M unit :=
  start_loop rounds fuel cycles 0.

(** Whether a reply makes a round of [make_request] fall through to the
    backoff sleep: a transport error, or a response that is not 200, not
    ignorable and not handed back as unauthorized. *)
Definition retriable (re_login_on_unauthorized : bool) (ignore_errors : list string)
    (p : post_result) : bool :=
  match p with
  | PostRaises e => is_RequestException e
  | PostReturns r =>
      negb (status_code r =? 200) &&
      match decoded r with
      | None => json_error_is_request_exception
      | Some v =>
          match py_get v "message" (JStr "") with
          | Ok error_message =>
              match py_any_in ignore_errors error_message with
              | Ok false => negb ((status_code r =? 401) && re_login_on_unauthorized)
              | _ => false
              end
          | _ => false
          end
      end
  end.

(** ** Observations on a state *)


Definition is_call (q : call -> bool) (e : event) : bool :=
  match e with
  | ECall c => q c
  | _ => false
  end.

(** How many method entries satisfying [q] the trace holds. *)
Definition calls_of (q : call -> bool) (st : state) : nat :=
  length (List.filter (is_call q) (trace st)).

(** The lengths of the sleeps in the trace, in order. *)
Definition sleeps_of (evs : list event) : list Z :=
  flat_map (fun e => match e with ESleep t => [t] | _ => [] end) evs.

Definition sleeps (st : state) : list Z := sleeps_of (trace st).

Definition is_login (c : call) : bool :=
  match c with CLogin _ => true | _ => false end.

Definition is_logout (c : call) : bool :=
  match c with CLogout _ => true | _ => false end.

Definition is_set_profile (c : call) : bool :=
  match c with CSetProfile _ _ _ => true | _ => false end.

Definition is_set_curtail (c : call) : bool :=
  match c with CSetCurtail _ _ _ => true | _ => false end.

(** A call of [make_request] on the given url. *)
Definition is_request_to (url : string) (c : call) : bool :=
  match c with
  | CMakeRequest url' _ _ _ _ => String.eqb url url'
  | _ => false
  end.

(** The steps the runner takes after a successful login. *)
Definition is_step (c : call) : bool :=
  is_set_curtail c || is_set_profile c || is_logout c.

(** The state a method body starts from once its entry is recorded. *)
Definition entered (c : call) (st : state) : state := snd (enter c st).

Definition logged (m : log_msg) (st : state) : state := snd (log m st).

Definition reported (m : log_msg) (st : state) : state := snd (report m st).

(** The state after an optional error line: what an [except] clause that
    only logs leaves behind. *)
Definition after_error {A} (line : exn -> log_msg) (r : result A) (st : state) : state :=
  match r with
  | Raise e => logged (line e) st
  | _ => st
  end.

(** [st] after [sent] more posts and the events [evs]. *)
Definition advance (st : state) (sent : nat) (evs : list event) : state :=
  {| posts := sent + posts st; clock_reads := clock_reads st;
     miner_tokens := miner_tokens st; trace := trace st ++ evs |}.

(** What a setter does once its request came back as unauthorized.
    [setter] is [set_profile] or [set_curtail], [entry] and [data] give
    its trace entry and its request body for a token, [url] is its
    endpoint. After the unauthorized result the setter logs in, once.
    When the login returns no token the setter returns, with one login
    and one request made. When the login returns a token the setter
    calls itself with that token; when the request of that nested call
    is not unauthorized again, the whole call returns with one login and
    two requests made. *)
Definition relogin_protocol
    (setter : nat -> string -> json -> string -> M unit)
    (entry : json -> call) (url : string) (data : json -> dict)
    (fuel : nat) (miner_ip : string) (token : json) (value : string) (st : state) : Prop :=
  forall st1,
    make_request url (data token) max_retries true already_in (entered (entry token) st)
    = (Ok RUnauthorized, st1) ->
    forall token' st2,
      login miner_ip (reported (LUnauthorizedToken miner_ip) st1) = (Ok token', st2) ->
      calls_of is_login st2 = (calls_of is_login st + 1)%nat /\
      calls_of (is_request_to url) st2 = (calls_of (is_request_to url) st + 1)%nat /\
      (truthy token' = false ->
       setter (S fuel) miner_ip token value st = (Ok tt, st2)) /\
      (truthy token' = true ->
       setter (S fuel) miner_ip token value st = setter fuel miner_ip token' value st2 /\
       forall res st3,
         make_request url (data token') max_retries true already_in
           (entered (entry token') st2) = (Ok res, st3) ->
         res <> RUnauthorized ->
         forall fuel', fuel = S fuel' ->
         let out := setter (S fuel) miner_ip token value st in
         fst out = Ok tt /\
         calls_of is_login (snd out) = (calls_of is_login st + 1)%nat /\
         calls_of (is_request_to url) (snd out)
         = (calls_of (is_request_to url) st + 2)%nat).

(** A reflexive and transitive relation between an earlier and a later
    state; a piece of code respects it when every run relates the state
    it starts from to the state it ends in. *)
Record state_order : Type := StateOrder {
  rel :> state -> state -> Prop;
  rel_refl : forall st, rel st st;
  rel_trans : forall a b c, rel a b -> rel b c -> rel a c
}.

Definition respects (R : state_order) {A} (m : M A) : Prop :=
  forall st, R st (snd (m st)).

(** A piece of code that needs no fuel: none of its runs ends in
    [OutOfFuel]. *)
Definition finishes {A} (m : M A) : Prop :=
  forall st, fst (m st) <> OutOfFuel.

(** The token store is as it was. *)
Definition same_tokens : state_order :=
  {| rel := fun st st' => miner_tokens st' = miner_tokens st;
     rel_refl := fun st => eq_refl;
     rel_trans := fun a b c H1 H2 => eq_trans H2 H1 |}.

(** No method entry satisfying [q] was added. *)
Definition same_calls (q : call -> bool) : state_order :=
  {| rel := fun st st' => calls_of q st' = calls_of q st;
     rel_refl := fun st => eq_refl;
     rel_trans := fun a b c H1 H2 => eq_trans H2 H1 |}.

(** Method entries are only ever added. *)
Definition more_calls (q : call -> bool) : state_order :=
  {| rel := fun st st' => (calls_of q st <= calls_of q st')%nat;
     rel_refl := fun st => Nat.le_refl _;
     rel_trans := fun a b c H1 H2 => Nat.le_trans _ _ _ H1 H2 |}.

(** Every [make_request] on [url] is among the tolerated entries. *)
Definition requests_allowed (allowed : call -> Prop) (url : string) : Prop :=
  forall data retries relogin ignore,
    allowed (CMakeRequest url data retries relogin ignore).

(** The requests sent, in order: the url and the body of every post. *)
Definition posts_of (evs : list event) : list (string * dict) :=
  flat_map (fun e => match e with EPost url data => [(url, data)] | _ => [] end) evs.

Definition sent (st : state) : list (string * dict) := posts_of (trace st).

(** The time spent in [time.sleep], in microseconds. *)
Definition total_sleep (st : state) : Z := fold_right Z.add 0 (sleeps st).

(** The entries of the token store under every address but [miner_ip]
    are as they were. *)
Definition same_elsewhere (miner_ip : string) : state_order :=
  {| rel := fun st st' =>
              forall ip, ip <> miner_ip -> miner_tokens st' !! ip = miner_tokens st !! ip;
     rel_refl := fun st ip _ => eq_refl;
     rel_trans := fun a b c H1 H2 ip Hne => eq_trans (H2 ip Hne) (H1 ip Hne) |}.

(** More worlds for the examples. *)

Definition second_miner : string := "192.168.0.2".

(** A device that rejects every request with a 401. *)
Definition unauthorized_response : response :=
  json_response 401 (JDict [("message", JStr "Unauthorized")]).
Definition always_401 : nat -> post_result :=
  script [PostReturns unauthorized_response; PostReturns unauthorized_response;
          PostReturns unauthorized_response].

(** A device whose every answer is a 500. *)
Definition server_error : response :=
  json_response 500 (JDict [("message", JStr "Internal Server Error")]).
Definition always_500 : nat -> post_result :=
  script [PostReturns server_error; PostReturns server_error; PostReturns server_error].

(** A 500 whose message is a number. *)
Definition odd_response : response := json_response 500 (JDict [("message", JInt 5)]).

(** A login answered with a JSON list. *)
Definition list_response : response := json_response 200 (JList []).

(** One transport error, then a 200. *)
Definition done_response : response := json_response 200 (JDict []).
Definition flaky : nat -> post_result :=
  script [PostRaises RequestException; PostReturns done_response].

(** A clock that stays at 05:00 of day 0. *)
Definition five_o_clock : nat -> datetime := readings [] (Datetime 0 5 0 0 0).

(** A store that holds a token for the second miner. *)
Definition second_entry : token_entry :=
  {| entry_token := JStr "other"; entry_ttl := JNone |}.
Definition one_stored : state :=
  {| posts := 0; clock_reads := 0;
     miner_tokens := {[ second_miner := second_entry ]};
     trace := [] |}.

(** ** Runs of sequenced code *)

Lemma bind_ok {A B} (m : M A) (k : A -> M B) st a st' :
  m st = (Ok a, st') -> bind m k st = k a st'.
Proof. intros H. unfold bind. now rewrite H. Qed.

Lemma bind_raise {A B} (m : M A) (k : A -> M B) st e st' :
  m st = (Raise e, st') -> bind m k st = (Raise e, st').
Proof. intros H. unfold bind. now rewrite H. Qed.

Lemma bind_out_of_fuel {A B} (m : M A) (k : A -> M B) st st' :
  m st = (OutOfFuel, st') -> bind m k st = (OutOfFuel, st').
Proof. intros H. unfold bind. now rewrite H. Qed.

Lemma bind_enter {A} c (k : unit -> M A) st :
  bind (enter c) k st = k tt (entered c st).
Proof. reflexivity. Qed.

Lemma bind_report {A} m (k : unit -> M A) st :
  bind (report m) k st = k tt (reported m st).
Proof. reflexivity. Qed.

Lemma log_run m st : log m st = (Ok tt, logged m st).
Proof. reflexivity. Qed.

Lemma emit_run e st :
  emit e st = (Ok tt, {| posts := posts st; clock_reads := clock_reads st;
                         miner_tokens := miner_tokens st; trace := trace st ++ [e] |}).
Proof. reflexivity. Qed.

(** *** Relations that every step of a piece of code respects *)

Section Respects.

Variable R : state_order.

Lemma respects_ret {A} (a : A) : respects R (ret a).
Proof. intros st. simpl. apply rel_refl. Qed.

Lemma respects_raise {A} e : respects R (@raise A e).
Proof. intros st. simpl. apply rel_refl. Qed.

Lemma respects_out_of_fuel {A} : respects R (@out_of_fuel A).
Proof. intros st. simpl. apply rel_refl. Qed.

Lemma respects_lift {A} (r : result A) : respects R (lift r).
Proof. intros st. simpl. apply rel_refl. Qed.

Lemma respects_get_tokens : respects R get_tokens.
Proof. intros st. simpl. apply rel_refl. Qed.

Lemma respects_bind {A B} (m : M A) (k : A -> M B) :
  respects R m -> (forall a, respects R (k a)) -> respects R (bind m k).
Proof.
  intros Hm Hk st. unfold bind. specialize (Hm st).
  destruct (m st) as [[a | e | ] st1]; simpl in *; try exact Hm.
  apply (rel_trans R _ st1); [exact Hm | apply Hk].
Qed.

(** The part of a sequence that follows its first action. *)
Lemma bind_tail {A B} (m : M A) (k : A -> M B) st :
  (forall a, respects R (k a)) -> R (snd (m st)) (snd (bind m k st)).
Proof.
  intros Hk. unfold bind.
  destruct (m st) as [[a | e | ] st1]; cbn [snd]; try apply rel_refl.
  apply Hk.
Qed.

Lemma respects_try_except {A} (body : M A) handler :
  respects R body ->
  (forall e h, handler e = Some h -> respects R h) ->
  respects R (try_except body handler).
Proof.
  intros Hb Hh st. unfold try_except. specialize (Hb st).
  destruct (body st) as [[a | e | ] st1]; simpl in *; try exact Hb.
  destruct (handler e) as [h | ] eqn:E; simpl; [ | exact Hb].
  apply (rel_trans R _ st1); [exact Hb | exact (Hh e h E st1)].
Qed.

Lemma respects_try_except_Exception {A} (body : M A) handler :
  respects R body -> (forall e, respects R (handler e)) ->
  respects R (try_except_Exception body handler).
Proof.
  intros Hb Hh. apply respects_try_except; [exact Hb | ].
  intros e h [= <-]. apply Hh.
Qed.

Lemma respects_for_each {X A} (body : X -> M (flow A)) xs :
  (forall x, respects R (body x)) -> respects R (for_each body xs).
Proof.
  intros Hb. induction xs as [ | x xs IH]; simpl.
  - apply respects_ret.
  - apply respects_bind; [apply Hb | ].
    intros [ | v]; [exact IH | apply respects_ret].
Qed.

End Respects.

(** One step of a proof that a piece of code respects a relation. *)
Ltac respects_step :=
  match goal with
  | |- respects _ (bind _ _) => apply respects_bind; [ | intros ? ]
  | |- respects _ (ret _) => apply respects_ret
  | |- respects _ (raise _) => apply respects_raise
  | |- respects _ out_of_fuel => apply respects_out_of_fuel
  | |- respects _ (lift _) => apply respects_lift
  | |- respects _ get_tokens => apply respects_get_tokens
  | |- respects _ (try_except_Exception _ _) =>
      apply respects_try_except_Exception; [ | intros ? ]
  | |- respects _ (if ?b then _ else _) => destruct b
  | |- respects _ (match ?x with _ => _ end) => destruct x
  end.

Lemma calls_of_emit q e st :
  calls_of q (snd (emit e st)) = (calls_of q st + (if is_call q e then 1 else 0))%nat.
Proof.
  unfold calls_of. simpl. rewrite List.filter_app, List.length_app. simpl.
  destruct (is_call q e); reflexivity.
Qed.

(** *** Code that needs no fuel *)

Lemma finishes_ret {A} (a : A) : finishes (ret a).
Proof. now intros st. Qed.

Lemma finishes_raise {A} e : finishes (@raise A e).
Proof. now intros st. Qed.

Lemma finishes_lift {A} (r : result A) : r <> OutOfFuel -> finishes (lift r).
Proof. now intros H st. Qed.

Lemma finishes_emit e : finishes (emit e).
Proof. now intros st. Qed.

Lemma finishes_get_tokens : finishes get_tokens.
Proof. now intros st. Qed.

Lemma finishes_set_tokens m : finishes (set_tokens m).
Proof. now intros st. Qed.

Lemma finishes_now : finishes datetime_now.
Proof. now intros st. Qed.

Lemma finishes_post url data : finishes (requests_post url data).
Proof. intros st. unfold requests_post. now destruct (responses (posts st)). Qed.

Lemma finishes_time_sleep t : finishes (time_sleep t).
Proof. intros st. unfold time_sleep. now destruct (t <? 0). Qed.

Lemma finishes_bind {A B} (m : M A) (k : A -> M B) :
  finishes m -> (forall a, finishes (k a)) -> finishes (bind m k).
Proof.
  intros Hm Hk st. unfold bind. specialize (Hm st).
  destruct (m st) as [[a | e | ] st1]; cbn [fst] in *;
    [apply Hk | discriminate | now destruct Hm].
Qed.

Lemma finishes_report m : finishes (report m).
Proof. apply finishes_bind; [ | intros _]; apply finishes_emit. Qed.

Lemma finishes_try_except {A} (body : M A) handler :
  finishes body ->
  (forall e h, handler e = Some h -> finishes h) ->
  finishes (try_except body handler).
Proof.
  intros Hb Hh st. unfold try_except. specialize (Hb st).
  destruct (body st) as [[a | e | ] st1]; cbn [fst] in *;
    [discriminate | | exact Hb].
  destruct (handler e) as [h | ] eqn:E; [exact (Hh e h E st1) | discriminate].
Qed.

Lemma finishes_for_each {X A} (body : X -> M (flow A)) xs :
  (forall x, finishes (body x)) -> finishes (for_each body xs).
Proof.
  intros Hb. induction xs as [ | x xs IH]; cbn [for_each].
  - apply finishes_ret.
  - apply finishes_bind; [apply Hb | ].
    intros [ | v]; [exact IH | apply finishes_ret].
Qed.

Lemma py_get_finishes v k default : py_get v k default <> OutOfFuel.
Proof. now destruct v. Qed.

Lemma py_any_in_finishes errors hay : py_any_in errors hay <> OutOfFuel.
Proof.
  induction errors as [ | e errors IH]; cbn [py_any_in]; [discriminate | ].
  destruct hay; cbn [py_in]; try discriminate;
    match goal with |- context [if ?b then _ else _] => now destruct b
                  | |- (match ?b with true => _ | false => _ end) <> _ => now destruct b
    end.
Qed.

Lemma response_json_finishes r : response_json r <> OutOfFuel.
Proof. unfold response_json. now destruct (decoded r). Qed.

Ltac finishes_step :=
  match goal with
  | |- finishes (bind _ _) => apply finishes_bind; [ | intros ? ]
  | |- finishes (ret _) => apply finishes_ret
  | |- finishes (raise _) => apply finishes_raise
  | |- finishes (lift (py_get _ _ _)) => apply finishes_lift, py_get_finishes
  | |- finishes (lift (py_any_in _ _)) => apply finishes_lift, py_any_in_finishes
  | |- finishes (lift (response_json _)) => apply finishes_lift, response_json_finishes
  | |- finishes (log _) => apply finishes_emit
  | |- finishes (print _) => apply finishes_emit
  | |- finishes (enter _) => apply finishes_emit
  | |- finishes (report _) => apply finishes_report
  | |- finishes (time_sleep _) => apply finishes_time_sleep
  | |- finishes (requests_post _ _) => apply finishes_post
  | |- finishes datetime_now => apply finishes_now
  | |- finishes get_tokens => apply finishes_get_tokens
  | |- finishes (set_tokens _) => apply finishes_set_tokens
  | |- finishes (if ?b then _ else _) => destruct b
  | |- finishes (match ?x with _ => _ end) => destruct x
  end.

(** [make_request], [login], [logout] and [determine_mode] have no
    unbounded loop: their runs end without any fuel. *)
Lemma make_request_finishes url data retries relogin ignore :
  finishes (make_request url data retries relogin ignore).
Proof.
  unfold make_request. finishes_step; [finishes_step | ].
  apply finishes_bind; [ | intros fl; repeat finishes_step].
  apply finishes_for_each. intros attempt. unfold make_request_attempt.
  apply finishes_bind; [ | intros fl; repeat finishes_step].
  apply finishes_try_except.
  - unfold make_request_try. repeat finishes_step.
  - intros e h. destruct (is_RequestException e); intros [= <-].
    repeat finishes_step.
Qed.

Lemma login_finishes miner_ip : finishes (login miner_ip).
Proof.
  unfold login. finishes_step; [finishes_step | ].
  apply finishes_bind; [apply make_request_finishes | intros response].
  repeat finishes_step.
Qed.

Lemma logout_finishes miner_ip : finishes (logout miner_ip).
Proof.
  unfold logout. finishes_step; [finishes_step | ].
  apply finishes_bind; [apply make_request_finishes | intros response].
  repeat finishes_step.
Qed.

(** *** The methods respect every relation their primitive actions respect *)

Section Frame.

Variable R : state_order.

(** The method entries that [R] tolerates. *)
Variable allowed : call -> Prop.

Hypothesis R_post : forall url data, respects R (requests_post url data).
Hypothesis R_now : respects R datetime_now.
Hypothesis R_event :
  forall e, (forall c, e = ECall c -> allowed c) -> respects R (emit e).

Lemma respects_log m : respects R (log m).
Proof. apply R_event. intros c [=]. Qed.

Lemma respects_print m : respects R (print m).
Proof. apply R_event. intros c [=]. Qed.

Lemma respects_report m : respects R (report m).
Proof. apply respects_bind; [apply respects_log | intros _; apply respects_print]. Qed.

Lemma respects_enter c : allowed c -> respects R (enter c).
Proof. intros H. apply R_event. intros c' [= <-]. exact H. Qed.

Lemma respects_time_sleep t : respects R (time_sleep t).
Proof.
  unfold time_sleep. destruct (t <? 0); [apply respects_raise | ].
  apply R_event. intros c [=].
Qed.

(** What follows the entry of a method, from the state [entered c st]. *)
Lemma respects_after_entry {A} c (k : unit -> M A) :
  (forall u, respects R (k u)) ->
  forall st, R (entered c st) (snd (bind (enter c) k st)).
Proof. intros Hk st. exact (Hk tt (entered c st)). Qed.

Ltac frame :=
  repeat first
    [ apply respects_log | apply respects_print | apply respects_report
    | apply respects_time_sleep | apply R_post | apply R_now
    | respects_step ].

Lemma make_request_try_respects url data relogin ignore :
  respects R (make_request_try url data relogin ignore).
Proof. unfold make_request_try. frame. Qed.

Lemma make_request_attempt_respects url data retries relogin ignore attempt :
  respects R (make_request_attempt url data retries relogin ignore attempt).
Proof.
  unfold make_request_attempt. apply respects_bind.
  - apply respects_try_except; [apply make_request_try_respects | ].
    intros e h. destruct (is_RequestException e); intros [= <-]. frame.
  - intros fl. frame.
Qed.

Lemma make_request_after_entry url data retries relogin ignore st :
  R (entered (CMakeRequest url data retries relogin ignore) st)
    (snd (make_request url data retries relogin ignore st)).
Proof.
  unfold make_request. apply respects_after_entry. intros _.
  apply respects_bind.
  - apply respects_for_each. intros x. apply make_request_attempt_respects.
  - intros fl. frame.
Qed.

Lemma make_request_respects url data retries relogin ignore :
  allowed (CMakeRequest url data retries relogin ignore) ->
  respects R (make_request url data retries relogin ignore).
Proof.
  intros Hc st.
  apply (rel_trans R _ (entered (CMakeRequest url data retries relogin ignore) st)).
  - apply (respects_enter _ Hc).
  - apply make_request_after_entry.
Qed.

Lemma determine_mode_after_entry st :
  R (entered CDetermineMode st) (snd (determine_mode st)).
Proof. unfold determine_mode. apply respects_after_entry. intros _. frame. Qed.

Lemma determine_mode_respects : allowed CDetermineMode -> respects R determine_mode.
Proof.
  intros Hc st. apply (rel_trans R _ (entered CDetermineMode st)).
  - apply (respects_enter _ Hc).
  - apply determine_mode_after_entry.
Qed.

(** From here on the token store may be written. *)
Hypothesis R_set_tokens : forall m, respects R (set_tokens m).

Ltac frame' :=
  repeat first
    [ apply respects_log | apply respects_print | apply respects_report
    | apply respects_time_sleep | apply R_post | apply R_now
    | apply R_set_tokens
    | respects_step ].

Lemma login_after_entry miner_ip st :
  requests_allowed allowed (base_url +:+ "/login") ->
  R (entered (CLogin miner_ip) st) (snd (login miner_ip st)).
Proof.
  intros Hr. unfold login. apply respects_after_entry. intros _.
  apply respects_bind; [apply make_request_respects, Hr | intros response].
  frame'.
Qed.

Lemma login_after_request miner_ip st :
  R (snd (make_request (base_url +:+ "/login") [("miner_ip", JStr miner_ip)]
            max_retries false [] (entered (CLogin miner_ip) st)))
    (snd (login miner_ip st)).
Proof.
  unfold login. rewrite bind_enter. apply bind_tail. intros response. frame'.
Qed.

Lemma login_respects miner_ip :
  requests_allowed allowed (base_url +:+ "/login") ->
  allowed (CLogin miner_ip) -> respects R (login miner_ip).
Proof.
  intros Hr Hc st. apply (rel_trans R _ (entered (CLogin miner_ip) st)).
  - apply (respects_enter _ Hc).
  - apply login_after_entry, Hr.
Qed.

Lemma logout_after_entry miner_ip st :
  requests_allowed allowed (base_url +:+ "/logout") ->
  R (entered (CLogout miner_ip) st) (snd (logout miner_ip st)).
Proof.
  intros Hr. unfold logout. apply respects_after_entry. intros _.
  apply respects_bind; [apply make_request_respects, Hr | intros response].
  frame'.
Qed.

Lemma logout_after_request miner_ip st :
  R (snd (make_request (base_url +:+ "/logout") [("miner_ip", JStr miner_ip)]
            max_retries false [] (entered (CLogout miner_ip) st)))
    (snd (logout miner_ip st)).
Proof.
  unfold logout. rewrite bind_enter. apply bind_tail. intros response. frame'.
Qed.

Lemma logout_respects miner_ip :
  requests_allowed allowed (base_url +:+ "/logout") ->
  allowed (CLogout miner_ip) -> respects R (logout miner_ip).
Proof.
  intros Hr Hc st. apply (rel_trans R _ (entered (CLogout miner_ip) st)).
  - apply (respects_enter _ Hc).
  - apply logout_after_entry, Hr.
Qed.

Lemma set_profile_respects fuel miner_ip token profile :
  requests_allowed allowed (base_url +:+ "/login") ->
  requests_allowed allowed (base_url +:+ "/profileset") ->
  allowed (CLogin miner_ip) ->
  (forall t, allowed (CSetProfile miner_ip t profile)) ->
  respects R (set_profile fuel miner_ip token profile).
Proof.
  intros Hrl Hrs Hl Hs. revert token.
  induction fuel as [ | fuel IH]; intros token; cbn [set_profile].
  - apply respects_out_of_fuel.
  - apply respects_bind; [apply respects_enter, Hs | intros _].
    apply respects_bind; [apply make_request_respects, Hrs | intros response].
    destruct response; frame'; [now apply login_respects | apply IH].
Qed.

Lemma set_curtail_respects fuel miner_ip token mode :
  requests_allowed allowed (base_url +:+ "/login") ->
  requests_allowed allowed (base_url +:+ "/curtail") ->
  allowed (CLogin miner_ip) ->
  (forall t, allowed (CSetCurtail miner_ip t mode)) ->
  respects R (set_curtail fuel miner_ip token mode).
Proof.
  intros Hrl Hrs Hl Hs. revert token.
  induction fuel as [ | fuel IH]; intros token; cbn [set_curtail].
  - apply respects_out_of_fuel.
  - apply respects_bind; [apply respects_enter, Hs | intros _].
    apply respects_bind; [apply make_request_respects, Hrs | intros response].
    destruct response; frame'; [now apply login_respects | apply IH].
Qed.

Lemma set_profile_after_entry fuel miner_ip token profile st :
  requests_allowed allowed (base_url +:+ "/login") ->
  requests_allowed allowed (base_url +:+ "/profileset") ->
  allowed (CLogin miner_ip) ->
  (forall t, allowed (CSetProfile miner_ip t profile)) ->
  R (entered (CSetProfile miner_ip token profile) st)
    (snd (set_profile (S fuel) miner_ip token profile st)).
Proof.
  intros Hrl Hrs Hl Hs. cbn [set_profile]. apply respects_after_entry. intros _.
  apply respects_bind; [apply make_request_respects, Hrs | intros response].
  destruct response; frame';
    [now apply login_respects | now apply set_profile_respects].
Qed.

Lemma set_curtail_after_entry fuel miner_ip token mode st :
  requests_allowed allowed (base_url +:+ "/login") ->
  requests_allowed allowed (base_url +:+ "/curtail") ->
  allowed (CLogin miner_ip) ->
  (forall t, allowed (CSetCurtail miner_ip t mode)) ->
  R (entered (CSetCurtail miner_ip token mode) st)
    (snd (set_curtail (S fuel) miner_ip token mode st)).
Proof.
  intros Hrl Hrs Hl Hs. cbn [set_curtail]. apply respects_after_entry. intros _.
  apply respects_bind; [apply make_request_respects, Hrs | intros response].
  destruct response; frame';
    [now apply login_respects | now apply set_curtail_respects].
Qed.

End Frame.

(** *** What leaves the token store alone *)

Lemma post_same_tokens url data : respects same_tokens (requests_post url data).
Proof. intros st. unfold requests_post. now destruct (responses (posts st)). Qed.

Lemma make_request_tokens url data retries relogin ignore st :
  miner_tokens (snd (make_request url data retries relogin ignore st)) = miner_tokens st.
Proof.
  apply (make_request_respects same_tokens (fun _ => True)); try exact I.
  - apply post_same_tokens.
  - now intros e _ st'.
Qed.

Lemma determine_mode_tokens st :
  miner_tokens (snd (determine_mode st)) = miner_tokens st.
Proof.
  apply (determine_mode_respects same_tokens (fun _ => True)); try exact I.
  - now intros st'.
  - now intros e _ st'.
Qed.

(** *** What adds no method entry of a given kind *)

Lemma post_same_calls q url data : respects (same_calls q) (requests_post url data).
Proof.
  intros st. simpl. unfold requests_post.
  assert (E : forall tk,
             calls_of q {| posts := S (posts st); clock_reads := clock_reads st;
                           miner_tokens := tk; trace := trace st ++ [EPost url data] |}
             = calls_of q st).
  { intros tk. unfold calls_of. simpl.
    rewrite List.filter_app, List.length_app. simpl. lia. }
  destruct (responses (posts st)); apply E.
Qed.

Lemma event_same_calls q e :
  (forall c, e = ECall c -> q c = false) -> respects (same_calls q) (emit e).
Proof.
  intros H st. simpl. change (calls_of q (snd (emit e st)) = calls_of q st).
  rewrite calls_of_emit. destruct e as [ | | | | c]; simpl; try lia.
  rewrite (H c eq_refl). lia.
Qed.

Lemma post_more_calls q url data : respects (more_calls q) (requests_post url data).
Proof.
  intros st. simpl. rewrite (post_same_calls q url data st). lia.
Qed.

Lemma event_more_calls q e : respects (more_calls q) (emit e).
Proof.
  intros st. simpl. change (calls_of q st <= calls_of q (snd (emit e st)))%nat.
  rewrite calls_of_emit. lia.
Qed.

Lemma calls_of_entered q c st :
  calls_of q (entered c st) = (calls_of q st + Nat.b2n (q c))%nat.
Proof. unfold entered, enter. rewrite calls_of_emit. cbn. now destruct (q c). Qed.

Lemma calls_of_logged q m st : calls_of q (logged m st) = calls_of q st.
Proof. unfold logged, log. rewrite calls_of_emit. cbn. lia. Qed.

Lemma calls_of_reported q m st : calls_of q (reported m st) = calls_of q st.
Proof.
  unfold reported, report, bind, log, print. cbn [emit snd].
  unfold calls_of. cbn [trace]. rewrite !List.filter_app, !List.length_app. cbn. lia.
Qed.

Lemma calls_of_after_error {A} q line (r : result A) st :
  calls_of q (after_error line r st) = calls_of q st.
Proof. destruct r; cbn [after_error]; now rewrite ?calls_of_logged. Qed.

(** An event that is no method entry changes no count. *)
Lemma plain_event_same_calls q e :
  (forall c, e = ECall c -> False) -> respects (same_calls q) (emit e).
Proof. intros H. apply event_same_calls. intros c Hc. destruct (H c Hc). Qed.

Lemma now_same_calls q : respects (same_calls q) datetime_now.
Proof. now intros st. Qed.

Lemma set_tokens_same_calls q m : respects (same_calls q) (set_tokens m).
Proof. now intros st. Qed.

(** [make_request] adds its own entry and no other. *)
Lemma make_request_calls q url data retries relogin ignore st :
  calls_of q (snd (make_request url data retries relogin ignore st))
  = (calls_of q st + Nat.b2n (q (CMakeRequest url data retries relogin ignore)))%nat.
Proof.
  pose proof (make_request_after_entry (same_calls q) (fun _ => False)
                (post_same_calls q) (plain_event_same_calls q)
                url data retries relogin ignore st) as H.
  cbn [rel same_calls] in H. now rewrite H, calls_of_entered.
Qed.

(** [login] adds its own entry and that of its request. *)
Lemma login_calls q miner_ip st :
  calls_of q (snd (login miner_ip st))
  = (calls_of q st + Nat.b2n (q (CLogin miner_ip))
     + Nat.b2n (q (CMakeRequest (base_url +:+ "/login") [("miner_ip", JStr miner_ip)]
                     max_retries false [])))%nat.
Proof.
  pose proof (login_after_request (same_calls q) (fun _ => False)
                (plain_event_same_calls q) (set_tokens_same_calls q) miner_ip st) as H.
  cbn [rel same_calls] in H. rewrite H, make_request_calls, calls_of_entered. lia.
Qed.

(** [logout] adds its own entry and that of its request. *)
Lemma logout_calls q miner_ip st :
  calls_of q (snd (logout miner_ip st))
  = (calls_of q st + Nat.b2n (q (CLogout miner_ip))
     + Nat.b2n (q (CMakeRequest (base_url +:+ "/logout") [("miner_ip", JStr miner_ip)]
                     max_retries false [])))%nat.
Proof.
  pose proof (logout_after_request (same_calls q) (fun _ => False)
                (plain_event_same_calls q) (set_tokens_same_calls q) miner_ip st) as H.
  cbn [rel same_calls] in H. rewrite H, make_request_calls, calls_of_entered. lia.
Qed.

Lemma determine_mode_calls q st :
  calls_of q (snd (determine_mode st)) = (calls_of q st + Nat.b2n (q CDetermineMode))%nat.
Proof.
  pose proof (determine_mode_after_entry (same_calls q) (now_same_calls q) st) as H.
  cbn [rel same_calls] in H. now rewrite H, calls_of_entered.
Qed.

(** The setters never remove an entry from the trace. *)
Lemma set_profile_more_calls q fuel miner_ip token profile st :
  (calls_of q st <= calls_of q (snd (set_profile fuel miner_ip token profile st)))%nat.
Proof.
  apply (set_profile_respects (more_calls q) (fun _ => True)); try easy.
  - apply post_more_calls.
  - intros e _. apply event_more_calls.
  - intros m st'. apply Nat.le_refl.
Qed.

Lemma set_curtail_more_calls q fuel miner_ip token mode st :
  (calls_of q st <= calls_of q (snd (set_curtail fuel miner_ip token mode st)))%nat.
Proof.
  apply (set_curtail_respects (more_calls q) (fun _ => True)); try easy.
  - apply post_more_calls.
  - intros e _. apply event_more_calls.
  - intros m st'. apply Nat.le_refl.
Qed.

(** A setter that did not run out of fuel recorded its entry. *)
Lemma set_profile_entered fuel miner_ip token profile st :
  fst (set_profile fuel miner_ip token profile st) <> OutOfFuel ->
  (calls_of is_set_profile st
   < calls_of is_set_profile (snd (set_profile fuel miner_ip token profile st)))%nat.
Proof.
  destruct fuel as [ | fuel]; [now intros [] | intros _].
  apply Nat.lt_le_trans
    with (calls_of is_set_profile (entered (CSetProfile miner_ip token profile) st)).
  - rewrite calls_of_entered. cbn. lia.
  - apply (set_profile_after_entry (more_calls is_set_profile) (fun _ => True));
      try easy.
    + apply post_more_calls.
    + intros e _. apply event_more_calls.
    + intros m st'. apply Nat.le_refl.
Qed.

(** ** The request executor *)

Lemma sleeps_of_app l l' : sleeps_of (l ++ l') = sleeps_of l ++ sleeps_of l'.
Proof. unfold sleeps_of. apply flat_map_app. Qed.

Lemma py_any_in_string errors m :
  py_any_in errors (JStr m) = Ok (existsb (fun e => is_substring e m) errors).
Proof.
  induction errors as [ | e errors IH]; simpl; [reflexivity | ].
  destruct (is_substring e m); simpl; [reflexivity | exact IH].
Qed.

Lemma range_pos retries :
  0 < retries -> range retries = 0%nat :: seq 1 (Z.to_nat retries - 1).
Proof.
  intros H. unfold range.
  destruct (Z.to_nat retries) as [ | n] eqn:E; [lia | ].
  simpl. now rewrite Nat.sub_0_r.
Qed.

Ltac trace_eq :=
  unfold advance; cbn [posts clock_reads miner_tokens trace];
  rewrite <- ?app_assoc; reflexivity.

Ltac sleeps_eq :=
  unfold sleeps, advance; cbn [snd trace]; rewrite <- ?app_assoc; cbn [app];
  rewrite ?sleeps_of_app; cbn [sleeps_of flat_map app]; rewrite ?app_nil_r;
  reflexivity.

(** Run the straight-line actions at the head of the goal. *)
Ltac run :=
  unfold report, log, print, enter, entered, logged, reported, bind, emit,
    lift, ret, raise, get_tokens, set_tokens;
  cbn [fst snd posts clock_reads miner_tokens trace].

(** A first response that is not 200 and whose message holds an
    ignorable substring ends the call at once. *)
Lemma make_request_ignored url data retries relogin ignore st r d m :
  0 < retries ->
  responses (posts st) = PostReturns r ->
  status_code r <> 200 ->
  decoded r = Some (JDict d) ->
  assoc "message" d = Some (JStr m) ->
  (exists e, In e ignore /\ is_substring e m = true) ->
  make_request url data retries relogin ignore st
  = (Ok (RResponse (mark_ignored r)),
     advance st 1 [ECall (CMakeRequest url data retries relogin ignore);
                   EPost url data;
                   ELog (LStatus (status_code r));
                   ELog (LIgnoring (JStr m))]).
Proof.
  intros Hn Hp Hs Hd Hm He.
  assert (Hany : py_any_in ignore (JStr m) = Ok true).
  { rewrite py_any_in_string. f_equal. apply existsb_exists. exact He. }
  unfold make_request. rewrite (range_pos _ Hn). cbn [for_each].
  unfold make_request_attempt, try_except, make_request_try, bind, enter,
    requests_post, log, emit, lift, ret, response_json, py_get.
  cbn [posts clock_reads miner_tokens trace]. rewrite Hp.
  apply Z.eqb_neq in Hs. rewrite Hs, Hd, Hm, Hany.
  f_equal. trace_eq.
Qed.

Lemma mark_ignored_truthy r : result_truthy (RResponse (mark_ignored r)) = true.
Proof. reflexivity. Qed.

Lemma set_profile_ignored fuel miner_ip token profile st r d m :
  0 < max_retries ->
  responses (posts st) = PostReturns r ->
  status_code r <> 200 ->
  decoded r = Some (JDict d) ->
  assoc "message" d = Some (JStr m) ->
  is_substring "Miner is already in" m = true ->
  set_profile (S fuel) miner_ip token profile st
  = (Ok tt,
     advance st 1
       [ECall (CSetProfile miner_ip token profile);
        ECall (CMakeRequest (base_url +:+ "/profileset")
                 [("token", token); ("profile", JStr profile)]
                 max_retries true already_in);
        EPost (base_url +:+ "/profileset") [("token", token); ("profile", JStr profile)];
        ELog (LStatus (status_code r));
        ELog (LIgnoring (JStr m));
        ELog (LProfileOk miner_ip profile);
        EPrint (LProfileOk miner_ip profile)]).
Proof.
  intros Hn Hp Hs Hd Hm He. cbn [set_profile]. rewrite bind_enter.
  rewrite (bind_ok _ _ _ _ _
             (make_request_ignored _ _ _ true already_in (entered _ st) r d m
                Hn Hp Hs Hd Hm (ex_intro _ _ (conj (or_introl eq_refl) He)))).
  cbn. run. f_equal. trace_eq.
Qed.

Lemma set_curtail_ignored fuel miner_ip token mode st r d m :
  0 < max_retries ->
  responses (posts st) = PostReturns r ->
  status_code r <> 200 ->
  decoded r = Some (JDict d) ->
  assoc "message" d = Some (JStr m) ->
  is_substring "Miner is already in" m = true ->
  set_curtail (S fuel) miner_ip token mode st
  = (Ok tt,
     advance st 1
       [ECall (CSetCurtail miner_ip token mode);
        ECall (CMakeRequest (base_url +:+ "/curtail")
                 [("token", token); ("mode", JStr mode)]
                 max_retries true already_in);
        EPost (base_url +:+ "/curtail") [("token", token); ("mode", JStr mode)];
        ELog (LStatus (status_code r));
        ELog (LIgnoring (JStr m));
        ELog (LCurtailOk miner_ip mode);
        EPrint (LCurtailOk miner_ip mode)]).
Proof.
  intros Hn Hp Hs Hd Hm He. cbn [set_curtail]. rewrite bind_enter.
  rewrite (bind_ok _ _ _ _ _
             (make_request_ignored _ _ _ true already_in (entered _ st) r d m
                Hn Hp Hs Hd Hm (ex_intro _ _ (conj (or_introl eq_refl) He)))).
  cbn. run. f_equal. trace_eq.
Qed.

(** *** Rounds that fail *)

Lemma backoff_nonneg attempt : (seconds (2 ^ Z.of_nat attempt) <? 0) = false.
Proof.
  apply Z.ltb_ge. unfold seconds.
  assert (0 <= 2 ^ Z.of_nat attempt) by (apply Z.pow_nonneg; lia). lia.
Qed.

Lemma sleeps_snoc st' st evs :
  trace st' = trace st ++ evs -> sleeps st' = sleeps st ++ sleeps_of evs.
Proof. intros H. unfold sleeps. now rewrite H, sleeps_of_app. Qed.

(** A round on a retriable reply posts once, sleeps [2 ^ attempt]
    seconds and falls through to the next round. *)
Lemma attempt_retriable url data retries relogin ignore attempt st :
  retriable relogin ignore (responses (posts st)) = true ->
  exists st',
    make_request_attempt url data retries relogin ignore attempt st = (Ok Next, st') /\
    posts st' = S (posts st) /\
    sleeps st' = sleeps st ++ [seconds (2 ^ Z.of_nat attempt)].
Proof.
  unfold retriable, make_request_attempt, try_except, make_request_try, bind,
    requests_post, response_json, time_sleep.
  rewrite backoff_nonneg.
  destruct (responses (posts st)) as [e | r]; intros H; run.
  - rewrite H. run. eexists. split; [reflexivity | ]. split; [reflexivity | ].
    sleeps_eq.
  - apply andb_prop in H as [Hs H]. apply negb_true_iff in Hs. rewrite Hs.
    destruct (decoded r) as [v | ]; run.
    + destruct (py_get v "message" (JStr "")) as [msg | | ]; try discriminate.
      destruct (py_any_in ignore msg) as [[ | ] | | ]; try discriminate.
      apply negb_true_iff in H. rewrite H. run.
      eexists. split; [reflexivity | ]. split; [reflexivity | ].
      sleeps_eq.
    + cbn [is_RequestException]. rewrite H. run.
      eexists. split; [reflexivity | ]. split; [reflexivity | ].
      sleeps_eq.
Qed.

(** Rounds on retriable replies all fall through, each after its sleep. *)
Lemma rounds_all_retriable url data retries relogin ignore n :
  forall first st,
    (forall i, (i < n)%nat ->
               retriable relogin ignore (responses (posts st + i)%nat) = true) ->
    exists st',
      for_each (make_request_attempt url data retries relogin ignore) (seq first n) st
      = (Ok Next, st') /\
      posts st' = (posts st + n)%nat /\
      sleeps st' = sleeps st ++ map (fun i => seconds (2 ^ Z.of_nat i)) (seq first n).
Proof.
  induction n as [ | n IH]; intros first st H.
  - exists st. cbn. rewrite app_nil_r. split; [reflexivity | split; [lia | reflexivity]].
  - destruct (attempt_retriable url data retries relogin ignore first st)
      as (st1 & E1 & P1 & S1).
    { replace (posts st) with (posts st + 0)%nat by lia. apply H. lia. }
    destruct (IH (S first) st1) as (st2 & E2 & P2 & S2).
    { intros i Hi. replace (posts st1 + i)%nat with (posts st + S i)%nat by lia.
      apply H. lia. }
    exists st2. cbn [seq for_each map]. rewrite (bind_ok _ _ _ _ _ E1).
    split; [exact E2 | ]. split; [lia | ].
    rewrite S2, S1, <- app_assoc. reflexivity.
Qed.

(** When every attempt gets a retriable reply, [make_request] posts
    [retries] times, sleeps after each of them, the last one included,
    and returns [None]. *)
Lemma make_request_exhausted url data retries relogin ignore st :
  (forall i, (i < Z.to_nat retries)%nat ->
             retriable relogin ignore (responses (posts st + i)%nat) = true) ->
  exists st',
    make_request url data retries relogin ignore st = (Ok RNone, st') /\
    posts st' = (posts st + Z.to_nat retries)%nat /\
    sleeps st' = sleeps st ++ map (fun i => seconds (2 ^ Z.of_nat i)) (range retries).
Proof.
  intros H. unfold make_request. rewrite bind_enter.
  destruct (rounds_all_retriable url data retries relogin ignore
              (Z.to_nat retries) 0%nat (entered (CMakeRequest url data retries relogin ignore) st) H)
    as (st1 & E1 & P1 & S1).
  unfold range. rewrite (bind_ok _ _ _ _ _ E1). run.
  eexists. split; [reflexivity | ]. split; [exact P1 | ].
  cbn [trace]. unfold sleeps in *. cbn [trace] in *.
  rewrite sleeps_of_app, S1. unfold entered, enter, emit. cbn [snd trace].
  rewrite sleeps_of_app. cbn. now rewrite !app_nil_r.
Qed.

(** A transport error followed by a 200: one sleep of one second, then
    the response of the second attempt. *)
Lemma make_request_retry_then_success url data retries relogin ignore st e r :
  2 <= retries ->
  responses (posts st) = PostRaises e ->
  is_RequestException e = true ->
  responses (S (posts st)) = PostReturns r ->
  status_code r = 200 ->
  exists st',
    make_request url data retries relogin ignore st = (Ok (RResponse r), st') /\
    posts st' = (posts st + 2)%nat /\
    sleeps st' = sleeps st ++ [seconds (2 ^ 0)].
Proof.
  intros Hn Hp He Hp' Hs. unfold make_request, range.
  destruct (Z.to_nat retries) as [ | [ | n]] eqn:E; try lia.
  cbn [seq for_each].
  unfold make_request_attempt, try_except, make_request_try, bind,
    requests_post, time_sleep.
  rewrite !backoff_nonneg. run. rewrite Hp, He. run. rewrite Hp'. run.
  apply Z.eqb_eq in Hs. rewrite Hs.
  eexists. split; [reflexivity | ]. split; [cbn; lia | ].
  sleeps_eq.
Qed.

(** C6: a first response that is not 200 and whose error message holds
    one of the ignorable substrings ends [make_request] on that attempt:
    one post, no sleep, and a result that counts as true, so that the
    setters report success. *)
Theorem ignorable_error_ends_first_attempt
    url data retries relogin ignore st r d m :
  0 < retries ->
  responses (posts st) = PostReturns r ->
  status_code r <> 200 ->
  decoded r = Some (JDict d) ->
  assoc "message" d = Some (JStr m) ->
  (exists e, In e ignore /\ is_substring e m = true) ->
  let out := make_request url data retries relogin ignore st in
  fst out = Ok (RResponse (mark_ignored r)) /\
  posts (snd out) = S (posts st) /\
  sleeps (snd out) = sleeps st /\
  result_truthy (RResponse (mark_ignored r)) = true /\
  (0 < max_retries -> is_substring "Miner is already in" m = true ->
   forall fuel miner_ip token value,
     let p := set_profile (S fuel) miner_ip token value st in
     let c := set_curtail (S fuel) miner_ip token value st in
     fst p = Ok tt /\ posts (snd p) = S (posts st) /\ sleeps (snd p) = sleeps st /\
     [ELog (LProfileOk miner_ip value); EPrint (LProfileOk miner_ip value)]
       `suffix_of` trace (snd p) /\
     fst c = Ok tt /\ posts (snd c) = S (posts st) /\ sleeps (snd c) = sleeps st /\
     [ELog (LCurtailOk miner_ip value); EPrint (LCurtailOk miner_ip value)]
       `suffix_of` trace (snd c)).
Proof.
  intros Hn Hp Hs Hd Hm He out. subst out.
  rewrite (make_request_ignored _ _ _ _ _ _ r d m Hn Hp Hs Hd Hm He).
  cbn [fst snd].
  split; [reflexivity | ]. split; [reflexivity | ]. split; [sleeps_eq | ].
  split; [reflexivity | ].
  intros Hr Ha fuel miner_ip token value.
  rewrite (set_profile_ignored _ _ _ _ _ r d m Hr Hp Hs Hd Hm Ha).
  rewrite (set_curtail_ignored _ _ _ _ _ r d m Hr Hp Hs Hd Hm Ha).
  cbn [fst snd].
  split; [reflexivity | ]. split; [reflexivity | ]. split; [sleeps_eq | ].
  split.
  { unfold advance. cbn [trace].
    exists (trace st ++
            [ECall (CSetProfile miner_ip token value);
             ECall (CMakeRequest (base_url +:+ "/profileset")
                      [("token", token); ("profile", JStr value)]
                      max_retries true already_in);
             EPost (base_url +:+ "/profileset")
               [("token", token); ("profile", JStr value)];
             ELog (LStatus (status_code r)); ELog (LIgnoring (JStr m))]).
    rewrite <- app_assoc. reflexivity. }
  split; [reflexivity | ]. split; [reflexivity | ]. split; [sleeps_eq | ].
  unfold advance. cbn [trace].
  exists (trace st ++
          [ECall (CSetCurtail miner_ip token value);
           ECall (CMakeRequest (base_url +:+ "/curtail")
                    [("token", token); ("mode", JStr value)]
                    max_retries true already_in);
           EPost (base_url +:+ "/curtail")
             [("token", token); ("mode", JStr value)];
           ELog (LStatus (status_code r)); ELog (LIgnoring (JStr m))]).
  rewrite <- app_assoc. reflexivity.
Qed.


(** *** Plain requests: no ignorable errors, no unauthorized result *)

Lemma for_each_return {X A} (body : X -> M (flow A)) xs st v st' :
  for_each body xs st = (Ok (Return v), st') ->
  exists x st0 st1, body x st0 = (Ok (Return v), st1).
Proof.
  revert st. induction xs as [ | x xs IH]; intros st; cbn [for_each].
  - intros [=].
  - unfold bind. destruct (body x st) as [[[ | v0] | e | ] st1] eqn:E.
    + apply IH.
    + intros [= <- <-]. now exists x, st, st1.
    + intros [=].
    + intros [=].
Qed.

Lemma attempt_plain_return url data retries attempt st v st' :
  make_request_attempt url data retries false [] attempt st = (Ok (Return v), st') ->
  exists r, v = RResponse r /\ status_code r = 200.
Proof.
  unfold make_request_attempt, try_except, make_request_try, bind,
    requests_post, response_json, time_sleep.
  rewrite backoff_nonneg.
  destruct (responses (posts st)) as [e | r]; run.
  - destruct (is_RequestException e); run; intros [=].
  - destruct (status_code r =? 200) eqn:Hs.
    + intros [= <- _]. exists r. split; [reflexivity | now apply Z.eqb_eq].
    + rewrite andb_false_r.
      destruct (decoded r) as [j | ]; run.
      * destruct (py_get j "message" (JStr "")) as [msg | e | ]; run;
          [ | destruct (is_RequestException e); run | ]; intros [=].
      * destruct (is_RequestException JSONDecodeError); run; intros [=].
Qed.

(** Without ignorable errors and without the unauthorized result,
    [make_request] hands back a 200 response or [None]. *)
Lemma make_request_plain_result url data retries st v st' :
  make_request url data retries false [] st = (Ok v, st') ->
  v = RNone \/ exists r, v = RResponse r /\ status_code r = 200.
Proof.
  unfold make_request. rewrite bind_enter. unfold bind.
  destruct (for_each _ _ _) as [[[ | v0] | e | ] st1] eqn:E; run.
  - intros [= <- _]. now left.
  - intros [= <- _]. right.
    apply for_each_return in E as (x & st0 & st2 & E).
    exact (attempt_plain_return _ _ _ _ _ _ _ E).
  - intros [=].
  - intros [=].
Qed.

Lemma ok_200_truthy r : status_code r = 200 -> response_ok r = true.
Proof. intros H. unfold response_ok. now rewrite H. Qed.

(** ** The session manager *)

(** C7: when the login request hands back a response whose token is not
    empty, [login] stores the token and the ttl under the miner,
    replacing what was there, and returns the token; an absent ttl is
    stored as [None]. When the token is missing or empty, or the request
    gave up, [login] returns [None] and the store is as before. *)
Theorem login_token_store miner_ip st res st1 :
  make_request (base_url +:+ "/login") [("miner_ip", JStr miner_ip)]
    max_retries false [] (entered (CLogin miner_ip) st) = (Ok res, st1) ->
  let out := login miner_ip st in
  (res = RNone ->
   fst out = Ok JNone /\ miner_tokens (snd out) = miner_tokens st) /\
  (forall r d, res = RResponse r -> decoded r = Some (JDict d) ->
     let token := match assoc "token" d with Some t => t | None => JNone end in
     let ttl := match assoc "ttl" d with Some t => t | None => JNone end in
     (truthy token = true ->
      fst out = Ok token /\
      miner_tokens (snd out)
      = <[miner_ip := {| entry_token := token; entry_ttl := ttl |}]> (miner_tokens st) /\
      (assoc "ttl" d = None ->
       miner_tokens (snd out) !! miner_ip
       = Some {| entry_token := token; entry_ttl := JNone |})) /\
     (truthy token = false ->
      fst out = Ok JNone /\ miner_tokens (snd out) = miner_tokens st) /\
     (assoc "token" d = None \/ assoc "token" d = Some (JStr "") ->
      fst out = Ok JNone /\ miner_tokens (snd out) = miner_tokens st)).
Proof.
  intros Hreq out.
  assert (Htok : miner_tokens st1 = miner_tokens st).
  { pose proof (make_request_tokens (base_url +:+ "/login")
                  [("miner_ip", JStr miner_ip)] max_retries false []
                  (entered (CLogin miner_ip) st)) as H.
    now rewrite Hreq in H. }
  subst out. unfold login. rewrite bind_enter, (bind_ok _ _ _ _ _ Hreq).
  split.
  - intros ->. cbn [result_truthy]. run. now split.
  - intros r d -> Hd.
    destruct (make_request_plain_result _ _ _ _ _ _ Hreq)
      as [[=] | (r' & [= <-] & H200)].
    cbn [result_truthy]. rewrite (ok_200_truthy _ H200).
    unfold response_json, py_get. rewrite Hd. run.
    assert (Hnone :
              truthy (match assoc "token" d with Some t => t | None => JNone end)
              = false ->
              fst (login miner_ip st) = Ok JNone /\
              miner_tokens (snd (login miner_ip st)) = miner_tokens st).
    { intros Ht. unfold login. rewrite bind_enter, (bind_ok _ _ _ _ _ Hreq).
      cbn [result_truthy]. rewrite (ok_200_truthy _ H200).
      unfold response_json, py_get. rewrite Hd. run. rewrite Ht. run.
      now split. }
    split; [ | split].
    + intros Ht. rewrite Ht. run.
      split; [reflexivity | ]. rewrite Htok. split; [reflexivity | ].
      intros Httl. rewrite Httl. apply lookup_insert_eq.
    + intros Ht. rewrite Ht. run. now split.
    + unfold login in Hnone. rewrite bind_enter, (bind_ok _ _ _ _ _ Hreq) in Hnone.
      cbn [result_truthy] in Hnone. rewrite (ok_200_truthy _ H200) in Hnone.
      unfold response_json, py_get in Hnone. rewrite Hd in Hnone.
      intros [E | E]; apply Hnone; now rewrite E.
Qed.

(** C8: when the logout request succeeds, the entry of the miner is
    removed from the store, which changes nothing when there was none;
    when the request gave up the store is as before. *)
Theorem logout_token_store miner_ip st res st1 :
  make_request (base_url +:+ "/logout") [("miner_ip", JStr miner_ip)]
    max_retries false [] (entered (CLogout miner_ip) st) = (Ok res, st1) ->
  let out := logout miner_ip st in
  (forall r, res = RResponse r ->
     fst out = Ok tt /\
     miner_tokens (snd out) = delete miner_ip (miner_tokens st) /\
     (miner_tokens st !! miner_ip = None -> miner_tokens (snd out) = miner_tokens st)) /\
  (res = RNone ->
   fst out = Ok tt /\ miner_tokens (snd out) = miner_tokens st).
Proof.
  intros Hreq out.
  assert (Htok : miner_tokens st1 = miner_tokens st).
  { pose proof (make_request_tokens (base_url +:+ "/logout")
                  [("miner_ip", JStr miner_ip)] max_retries false []
                  (entered (CLogout miner_ip) st)) as H.
    now rewrite Hreq in H. }
  subst out. unfold logout. rewrite bind_enter, (bind_ok _ _ _ _ _ Hreq).
  split.
  - intros r ->.
    destruct (make_request_plain_result _ _ _ _ _ _ Hreq)
      as [[=] | (r' & [= <-] & H200)].
    cbn [result_truthy]. rewrite (ok_200_truthy _ H200). run. rewrite Htok.
    destruct (miner_tokens st !! miner_ip) as [entry | ] eqn:E; run.
    + split; [reflexivity | ]. split; [reflexivity | intros [=]].
    + rewrite Htok. split; [reflexivity | ].
      split; [symmetry; now apply delete_id | reflexivity].
  - intros ->. cbn [result_truthy]. run. now split.
Qed.

(** ** The setters and the re-login *)

Lemma snd_of_run {A} (m : M A) st r st' : m st = (r, st') -> snd (m st) = st'.
Proof. now intros ->. Qed.

(** Evaluate the tests on method entries in a hypothesis. *)
Ltac eval_b2n H :=
  repeat match type of H with
    | context [Nat.b2n ?b] =>
        let v := eval vm_compute in (Nat.b2n b) in
        change (Nat.b2n b) with v in H
    end;
  rewrite ?Nat.add_0_r in H.

(** What a finished [make_request] or [login] added to a count. *)
Ltac count_request q H :=
  let C := fresh "C" in
  match type of H with
  | make_request ?u ?d ?n ?b ?i ?s = _ =>
      pose proof (make_request_calls q u d n b i s) as C;
      rewrite H in C; cbn [snd] in C; rewrite ?calls_of_entered in C; eval_b2n C
  end.

Ltac count_login q H :=
  let C := fresh "C" in
  match type of H with
  | login ?ip ?s = _ =>
      pose proof (login_calls q ip s) as C;
      rewrite H in C; cbn [snd] in C;
      rewrite ?calls_of_reported, ?calls_of_entered in C; eval_b2n C
  end.

(** The proof is the same for both setters. *)
Ltac relogin_proof url :=
  intros H1 token' st2 H2;
  count_request is_login H1;
  count_request (is_request_to url) H1;
  count_login is_login H2;
  count_login (is_request_to url) H2;
  split; [lia | ]; split; [lia | ];
  cbn [set_profile set_curtail];
  rewrite bind_enter, (bind_ok _ _ _ _ _ H1), bind_report, (bind_ok _ _ _ _ _ H2);
  split; intros Ht; rewrite Ht; [reflexivity | ];
  split; [reflexivity | ];
  intros res st3 H3 Hres fuel' ->;
  count_request is_login H3;
  count_request (is_request_to url) H3;
  cbn [set_profile set_curtail];
  rewrite bind_enter, (bind_ok _ _ _ _ _ H3);
  destruct res as [r | | ]; [ | now destruct Hres | ];
    cbn [result_truthy]; try destruct (response_ok r);
    (split; [reflexivity | ]);
    change (snd (report ?m st3)) with (reported m st3);
    rewrite !calls_of_reported; lia.

(** C1, as the code has it: after an unauthorized result a setter logs
    in once; without a token it returns at once, with one login and one
    request made and nothing raised; with a token it calls itself with
    the new token, and when that second request is not unauthorized
    again the call ends with exactly one login and two requests.  The
    nested call follows the same protocol, so a further unauthorized
    result leads to a further login. *)
Theorem setter_relogin_protocol fuel miner_ip token value st :
  relogin_protocol set_profile
    (fun t => CSetProfile miner_ip t value) (base_url +:+ "/profileset")
    (fun t => [("token", t); ("profile", JStr value)])
    fuel miner_ip token value st /\
  relogin_protocol set_curtail
    (fun t => CSetCurtail miner_ip t value) (base_url +:+ "/curtail")
    (fun t => [("token", t); ("mode", JStr value)])
    fuel miner_ip token value st.
Proof.
  split; unfold relogin_protocol; intros st1.
  - relogin_proof (base_url +:+ "/profileset").
  - relogin_proof (base_url +:+ "/curtail").
Qed.

(** ** The schedule resolver *)

Lemma determine_mode_returns st :
  exists profile mode nt st', determine_mode st = (Ok (profile, mode, nt), st').
Proof.
  unfold determine_mode, bind, enter, emit, datetime_now.
  cbn [posts clock_reads miner_tokens trace].
  repeat match goal with
    | |- context [if ?b then _ else _] => destruct b
    end; do 4 eexists; reflexivity.
Qed.

Ltac decide_hours :=
  repeat match goal with
    | |- context [?a <=? ?b] => destruct (Z.leb_spec a b); try lia
    | |- context [?a <? ?b] => destruct (Z.ltb_spec a b); try lia
    end.

(** C4: the hour read from the clock selects the band: [0,6) gives
    (overclock, active), [6,12) gives (normal, active), [12,18) gives
    (underclock, active) and [18,24) gives (normal, sleep). *)
Theorem determine_mode_bands (st : state) :
  let h := hour (clock (clock_reads st)) in
  (0 <= h < 6 ->
   exists nt st', determine_mode st = (Ok ("overclock", "active", nt), st')) /\
  (6 <= h < 12 ->
   exists nt st', determine_mode st = (Ok ("normal", "active", nt), st')) /\
  (12 <= h < 18 ->
   exists nt st', determine_mode st = (Ok ("underclock", "active", nt), st')) /\
  (18 <= h < 24 ->
   exists nt st', determine_mode st = (Ok ("normal", "sleep", nt), st')).
Proof.
  intros h. subst h.
  repeat split; intros Hh; unfold determine_mode, bind, enter, emit, datetime_now;
    cbn [posts clock_reads miner_tokens trace]; decide_hours;
    cbn [andb]; eexists; eexists; reflexivity.
Qed.

(** When both readings of the clock give the same instant, the transition
    returned is the start of the next band and lies after that instant. *)
Lemma determine_mode_one_instant (st : state) (now : datetime) :
  clock (clock_reads st) = now ->
  clock (S (clock_reads st)) = now ->
  valid_datetime now ->
  exists profile mode st',
    determine_mode st = (Ok (profile, mode, next_band_start now), st') /\
    to_micros now < to_micros (next_band_start now).
Proof.
  intros H1 H2 (Hh & Hm & Hs & Hu).
  unfold determine_mode, bind, enter, emit, datetime_now, next_band_start.
  cbn [posts clock_reads miner_tokens trace]. rewrite H1.
  decide_hours; cbn [andb posts clock_reads miner_tokens trace]; rewrite H2;
    do 3 eexists; (split; [reflexivity | ]);
    unfold to_micros, add_days, replace_hour; cbn [day hour minute second microsecond];
    lia.
Qed.

(** ** The device cycle runner *)

Lemma process_miner_never_raises fuel miner_ip st e :
  fst (process_miner fuel miner_ip st) <> Raise e.
Proof.
  unfold process_miner. rewrite bind_enter.
  unfold try_except_Exception at 1. unfold try_except.
  destruct (bind (login miner_ip) _ _) as [[[] | e' | ] st'];
    cbn; discriminate.
Qed.

(** C9: no exception leaves [process_miner].  When the login returns no
    token the runner only logs that it skips the miner: no setter and no
    logout is entered.  When the login returns a token, [set_curtail] is
    run, then [set_profile] from the state [set_curtail] left, whether it
    returned or raised, then [logout] from the state [set_profile] left,
    whether it returned or raised, and the runner returns normally. *)
Theorem process_miner_isolation fuel miner_ip st :
  let out := process_miner fuel miner_ip st in
  (forall e, fst out <> Raise e) /\
  forall token st1,
    login miner_ip (entered (CProcessMiner miner_ip) st) = (Ok token, st1) ->
    (truthy token = false ->
     out = (Ok tt, logged (LNoTokenSkip miner_ip) st1) /\
     calls_of is_step (snd out) = calls_of is_step st) /\
    (truthy token = true ->
     exists profile mode nt st1',
       determine_mode st1 = (Ok (profile, mode, nt), st1') /\
       forall rc st2,
         set_curtail fuel miner_ip token mode st1' = (rc, st2) ->
         rc <> OutOfFuel ->
       forall rp st3,
         set_profile fuel miner_ip token profile
           (after_error (LErrCurtail miner_ip) rc st2) = (rp, st3) ->
         rp <> OutOfFuel ->
       forall rl st4,
         logout miner_ip (after_error (LErrProfile miner_ip) rp st3) = (rl, st4) ->
         out = (Ok tt, after_error (LErrLogout miner_ip) rl st4) /\
         (calls_of is_set_profile st2 < calls_of is_set_profile (snd out))%nat /\
         (calls_of is_logout st2 < calls_of is_logout (snd out))%nat /\
         (calls_of is_logout st3 < calls_of is_logout (snd out))%nat).
Proof.
  intros out. split; [intros e; apply process_miner_never_raises | ].
  intros token st1 Hlogin. subst out. split; intros Ht.
  - assert (E : process_miner fuel miner_ip st
                = (Ok tt, logged (LNoTokenSkip miner_ip) st1)).
    { unfold process_miner. rewrite bind_enter.
      unfold try_except_Exception at 1. unfold try_except.
      rewrite (bind_ok _ _ _ _ _ Hlogin), Ht. reflexivity. }
    rewrite E. split; [reflexivity | ]. cbn [snd].
    rewrite calls_of_logged.
    count_login is_step Hlogin. lia.
  - destruct (determine_mode_returns st1) as (profile & mode & nt & st1' & Hdm).
    exists profile, mode, nt, st1'. split; [exact Hdm | ].
    intros rc st2 Hc Hrc rp st3 Hp Hrp rl st4 Hl.
    assert (Hrl : rl <> OutOfFuel).
    { pose proof (logout_finishes miner_ip
                    (after_error (LErrProfile miner_ip) rp st3)) as F.
      now rewrite Hl in F. }
    assert (E : process_miner fuel miner_ip st
                = (Ok tt, after_error (LErrLogout miner_ip) rl st4)).
    { unfold process_miner. rewrite bind_enter.
      unfold try_except_Exception at 1. unfold try_except at 1.
      rewrite (bind_ok _ _ _ _ _ Hlogin), Ht.
      unfold try_except_Exception, try_except, bind, ret.
      rewrite Hdm, Hc.
      destruct rc as [[] | ec | ]; [ | | now destruct Hrc];
        cbn [after_error] in Hp; rewrite ?log_run; cbv beta iota; rewrite Hp;
        (destruct rp as [[] | ep | ]; [ | | now destruct Hrp]);
        cbn [after_error] in Hl; rewrite ?log_run; cbv beta iota; rewrite Hl;
        (destruct rl as [[] | el | ]; [ | | now destruct Hrl]); reflexivity. }
    rewrite E. split; [reflexivity | ]. cbn [snd].
    pose proof (set_profile_entered fuel miner_ip token profile
                  (after_error (LErrCurtail miner_ip) rc st2)) as P1.
    rewrite Hp in P1. cbn [fst snd] in P1. specialize (P1 Hrp).
    pose proof (set_profile_more_calls is_logout fuel miner_ip token profile
                  (after_error (LErrCurtail miner_ip) rc st2)) as P2.
    rewrite Hp in P2. cbn [snd] in P2.
    pose proof (logout_calls is_set_profile miner_ip
                  (after_error (LErrProfile miner_ip) rp st3)) as L1.
    rewrite Hl in L1. cbn [snd] in L1. eval_b2n L1.
    pose proof (logout_calls is_logout miner_ip
                  (after_error (LErrProfile miner_ip) rp st3)) as L2.
    rewrite Hl in L2. cbn [snd] in L2. eval_b2n L2.
    rewrite !calls_of_after_error in *. lia.
Qed.

(** ** The fleet scheduler *)

(** A round whose batch ends before the transition sleeps until the
    transition and goes on with the next round. *)
Lemma start_round_sleeps rounds fuel cycles count st p m nt st1 st2 :
  determine_mode st = (Ok (p, m, nt), st1) ->
  thread_pool_map fuel st1 = (Ok tt, st2) ->
  0 <= micros_between nt (clock (clock_reads st2)) ->
  match cycles with Some n => count + 1 < n | None => True end ->
  exists st3,
    start_loop (S rounds) fuel cycles count st
    = start_loop rounds fuel cycles
        (match cycles with Some _ => count + 1 | None => count end) st3 /\
    sleeps st3 = sleeps st2 ++ [micros_between nt (clock (clock_reads st2))].
Proof.
  intros Hdm Hb Hs Hc. cbn [start_loop].
  rewrite (bind_ok _ _ _ _ _ Hdm). cbv beta iota.
  rewrite (bind_ok _ _ _ _ _ Hb).
  unfold datetime_now, time_sleep. run.
  apply Z.ltb_ge in Hs. rewrite Hs.
  destruct cycles as [n | ].
  - assert (E : (count + 1 >=? n) = false) by lia. rewrite E. run.
    eexists. split; [reflexivity | ]. sleeps_eq.
  - run. eexists. split; [reflexivity | ]. sleeps_eq.
Qed.

(** A round whose batch ends after the transition computed before it
    passes a negative length to [time.sleep], which raises. *)
Lemma start_round_late rounds fuel cycles count st p m nt st1 st2 :
  determine_mode st = (Ok (p, m, nt), st1) ->
  thread_pool_map fuel st1 = (Ok tt, st2) ->
  micros_between nt (clock (clock_reads st2)) < 0 ->
  match cycles with Some n => count + 1 < n | None => True end ->
  fst (start_loop (S rounds) fuel cycles count st) = Raise ValueError.
Proof.
  intros Hdm Hb Hs Hc. cbn [start_loop].
  rewrite (bind_ok _ _ _ _ _ Hdm). cbv beta iota.
  rewrite (bind_ok _ _ _ _ _ Hb).
  unfold datetime_now, time_sleep. run.
  apply Z.ltb_lt in Hs. rewrite Hs.
  destruct cycles as [n | ].
  - assert (E : (count + 1 >=? n) = false) by lia. rewrite E. reflexivity.
  - reflexivity.
Qed.

(** ** Further properties of the request executor *)

Lemma range_nonpos retries : retries <= 0 -> range retries = [].
Proof. intros H. unfold range. now replace (Z.to_nat retries) with 0%nat by lia. Qed.

(** X1: with [retries] zero or negative the loop has no round:
    [make_request] posts nothing, sleeps not and returns [None]; with
    such a [max_retries], [login] returns [None] without a request sent
    and leaves the token store alone. *)
Theorem make_request_without_attempts url data retries relogin ignore st :
  retries <= 0 ->
  make_request url data retries relogin ignore st
  = (Ok RNone,
     advance st 0 [ECall (CMakeRequest url data retries relogin ignore);
                   ELog (LRequestGaveUp url retries)]) /\
  (max_retries <= 0 ->
   forall miner_ip,
     let out := login miner_ip st in
     fst out = Ok JNone /\
     sent (snd out) = sent st /\
     miner_tokens (snd out) = miner_tokens st).
Proof.
  intros H. split.
  - unfold make_request. rewrite (range_nonpos _ H). cbn [for_each]. run.
    f_equal. trace_eq.
  - intros Hm miner_ip. unfold login, make_request.
    rewrite (range_nonpos _ Hm). cbn [for_each]. run. cbn [result_truthy]. run.
    split; [reflexivity | ]. split; [ | reflexivity].
    unfold sent. cbn [trace]. rewrite <- !app_assoc. cbn [app].
    unfold posts_of. rewrite flat_map_app. cbn. now rewrite app_nil_r.
Qed.

Lemma first_success_run url data retries relogin ignore st r :
  0 < retries ->
  responses (posts st) = PostReturns r ->
  status_code r = 200 ->
  make_request url data retries relogin ignore st
  = (Ok (RResponse r),
     advance st 1 [ECall (CMakeRequest url data retries relogin ignore);
                   EPost url data;
                   ELog (LStatus 200)]).
Proof.
  intros Hn Hp Hs. unfold make_request. rewrite (range_pos _ Hn). cbn [for_each].
  unfold make_request_attempt, try_except, make_request_try, bind, enter,
    requests_post, log, emit, ret.
  cbn [posts clock_reads miner_tokens trace]. rewrite Hp, Hs. cbn.
  f_equal. trace_eq.
Qed.

(** X2: a 200 on the first attempt ends [make_request] with that
    response after one post and no sleep; its body is not decoded, so it
    need not be JSON. *)
Theorem make_request_first_success url data retries relogin ignore st r :
  0 < retries ->
  responses (posts st) = PostReturns r ->
  status_code r = 200 ->
  make_request url data retries relogin ignore st
  = (Ok (RResponse r),
     advance st 1 [ECall (CMakeRequest url data retries relogin ignore);
                   EPost url data;
                   ELog (LStatus 200)]).
Proof. apply first_success_run. Qed.


(** X4: an error body that is JSON but no object makes [make_request]
    raise [AttributeError] on the first attempt, and a message that is a
    number, a boolean or null makes it raise [TypeError] as soon as there
    is a substring to look for: neither is a [RequestException], so there
    is no retry and no sleep. *)
Theorem make_request_malformed_error_body url data retries relogin ignore st r v :
  0 < retries ->
  responses (posts st) = PostReturns r ->
  status_code r <> 200 ->
  decoded r = Some v ->
  let gone := advance st 1 [ECall (CMakeRequest url data retries relogin ignore);
                            EPost url data;
                            ELog (LStatus (status_code r))] in
  ((forall d, v <> JDict d) ->
   make_request url data retries relogin ignore st = (Raise AttributeError, gone)) /\
  (forall d msg e ignore',
     v = JDict d -> assoc "message" d = Some msg ->
     msg = JNone \/ (exists b, msg = JBool b) \/ (exists n, msg = JInt n) ->
     ignore = e :: ignore' ->
     make_request url data retries relogin ignore st = (Raise TypeError, gone)).
Proof.
  intros Hn Hp Hs Hd gone. apply Z.eqb_neq in Hs. split.
  - intros Hv. unfold make_request. rewrite (range_pos _ Hn). cbn [for_each].
    unfold make_request_attempt, try_except, make_request_try, bind, enter,
      requests_post, log, emit, lift, ret, response_json.
    cbn [posts clock_reads miner_tokens trace]. rewrite Hp, Hs, Hd.
    destruct v as [ | b | n | s | l | d]; try (now destruct (Hv d));
      cbn; f_equal; subst gone; trace_eq.
  - intros d msg e ignore' -> Hm Hmsg ->.
    unfold make_request. rewrite (range_pos _ Hn). cbn [for_each].
    unfold make_request_attempt, try_except, make_request_try, bind, enter,
      requests_post, log, emit, lift, ret, response_json, py_get.
    cbn [posts clock_reads miner_tokens trace]. rewrite Hp, Hs, Hd, Hm.
    destruct Hmsg as [-> | [[b ->] | [n ->]]]; cbn; f_equal; subst gone; trace_eq.
Qed.

(** *** The backoff schedule of every run *)

(** Whatever the reply, a round posts once; it either falls through
    after its sleep or ends the loop without one. *)
Lemma attempt_outcomes url data retries relogin ignore attempt st :
  let out := make_request_attempt url data retries relogin ignore attempt st in
  posts (snd out) = S (posts st) /\
  ((fst out = Ok Next /\
    sleeps (snd out) = sleeps st ++ [seconds (2 ^ Z.of_nat attempt)]) \/
   (fst out <> Ok Next /\ sleeps (snd out) = sleeps st)).
Proof.
  cbv zeta.
  unfold make_request_attempt, try_except, make_request_try, bind,
    requests_post, response_json, time_sleep.
  rewrite backoff_nonneg. run.
  destruct (responses (posts st)) as [e | r]; run;
    [ destruct (is_RequestException e)
    | destruct (status_code r =? 200);
      [ | destruct (decoded r) as [v | ]; run;
          [ destruct (py_get v "message" (JStr "")) as [msg | e | ]; run;
            [ destruct (py_any_in ignore msg) as [[ | ] | e | ]; run;
              [ | destruct ((status_code r =? 401) && relogin)
                | destruct (is_RequestException e) | ]
            | destruct (is_RequestException e) | ]
          | cbn [is_RequestException];
            destruct json_error_is_request_exception ] ] ];
    run; (split; [reflexivity | ]);
    first [ left; split; [reflexivity | sleeps_eq]
          | right; split; [discriminate | sleeps_eq] ].
Qed.

Lemma rounds_outcomes url data retries relogin ignore n :
  forall first st,
    let out := for_each (make_request_attempt url data retries relogin ignore)
                 (seq first n) st in
    exists k,
      (k <= n)%nat /\
      sleeps (snd out)
      = sleeps st ++ map (fun i => seconds (2 ^ Z.of_nat i)) (seq first k) /\
      ((fst out = Ok Next /\ k = n /\ posts (snd out) = (posts st + n)%nat) \/
       (fst out <> Ok Next /\ (k < n)%nat /\ posts (snd out) = (posts st + k + 1)%nat)).
Proof.
  induction n as [ | n IH]; intros first st; cbv zeta.
  - exists 0%nat. cbn. rewrite app_nil_r.
    split; [lia | ]. split; [reflexivity | ]. left. repeat split; lia.
  - cbn [seq for_each].
    destruct (attempt_outcomes url data retries relogin ignore first st)
      as (P & [[E S] | [E S]]);
      unfold bind;
      destruct (make_request_attempt url data retries relogin ignore first st)
        as [[[ | v] | e | ] st1]; cbn [fst snd] in *; try discriminate;
      try (now destruct E).
    + destruct (IH (Datatypes.S first) st1) as (k & Hk & Sk & Pk).
      exists (Datatypes.S k). split; [lia | ]. split.
      * rewrite Sk, S, <- app_assoc. reflexivity.
      * destruct Pk as [(Ek & -> & Pk) | (Ek & Hlt & Pk)].
        -- left. repeat split; [exact Ek | lia].
        -- right. repeat split; [exact Ek | lia | lia].
    + exists 0%nat. cbn. rewrite app_nil_r. split; [lia | ]. split; [exact S | ].
      right. repeat split; [discriminate | lia | lia].
    + exists 0%nat. cbn. rewrite app_nil_r. split; [lia | ]. split; [exact S | ].
      right. repeat split; [discriminate | lia | lia].
    + exists 0%nat. cbn. rewrite app_nil_r. split; [lia | ]. split; [exact S | ].
      right. repeat split; [discriminate | lia | lia].
Qed.

Lemma total_backoff k :
  fold_right Z.add 0 (map (fun i => seconds (2 ^ Z.of_nat i)) (seq 0 k))
  = seconds (2 ^ Z.of_nat k - 1).
Proof.
  induction k as [ | k IH]; [reflexivity | ].
  rewrite seq_S, map_app, fold_right_app. cbn [map fold_right plus].
  assert (G : forall l a, fold_right Z.add a l = fold_right Z.add 0 l + a).
  { induction l as [ | x l IHl]; intros a; cbn [fold_right]; [lia | ].
    rewrite IHl. lia. }
  rewrite G, IH. unfold seconds.
  replace (Z.of_nat (Datatypes.S k)) with (Z.of_nat k + 1) by lia.
  rewrite Z.pow_add_r by lia. lia.
Qed.

Lemma total_app l l' :
  fold_right Z.add 0 (l ++ l') = fold_right Z.add 0 l + fold_right Z.add 0 l'.
Proof.
  induction l as [ | x l IH]; cbn [app fold_right]; [lia | rewrite IH; lia].
Qed.

(** X5: in every run of [make_request], whatever the replies, the
    sleeps are 2^0, 2^1, ..., 2^(k-1) seconds for some number [k] of
    failed attempts that is at most [retries]; the call posts [k] or
    [k + 1] times, never more than [retries] times, and sleeps
    2^k - 1 seconds in all. *)
Theorem make_request_backoff_schedule url data retries relogin ignore st :
  let out := make_request url data retries relogin ignore st in
  exists k,
    (k <= Z.to_nat retries)%nat /\
    sleeps (snd out)
    = sleeps st ++ map (fun i => seconds (2 ^ Z.of_nat i)) (seq 0 k) /\
    (posts st + k <= posts (snd out) <= posts st + k + 1)%nat /\
    (posts (snd out) <= posts st + Z.to_nat retries)%nat /\
    total_sleep (snd out) = total_sleep st + seconds (2 ^ Z.of_nat k - 1).
Proof.
  cbv zeta. unfold make_request. rewrite bind_enter.
  destruct (rounds_outcomes url data retries relogin ignore (Z.to_nat retries) 0%nat
              (entered (CMakeRequest url data retries relogin ignore) st))
    as (k & Hk & Sk & Pk).
  fold (range retries) in Sk, Pk.
  assert (S0 : sleeps (entered (CMakeRequest url data retries relogin ignore) st)
               = sleeps st) by (unfold entered, enter, emit; sleeps_eq).
  rewrite S0 in Sk. cbn [entered enter emit snd posts] in Pk.
  exists k. unfold bind.
  destruct (for_each _ (range retries) _) as [[[ | v] | e | ] st1];
    cbn [fst snd] in *; run.
  - destruct Pk as [(_ & -> & Pk) | (E & _)]; [ | now destruct E].
    split; [lia | ].
    assert (S1 : sleeps {| posts := posts st1; clock_reads := clock_reads st1;
                           miner_tokens := miner_tokens st1;
                           trace := trace st1 ++ [ELog (LRequestGaveUp url retries)] |}
                 = sleeps st1) by sleeps_eq.
    split; [now rewrite S1 | ]. split; [lia | ]. split; [lia | ].
    unfold total_sleep. now rewrite S1, Sk, total_app, total_backoff.
  - destruct Pk as [([=] & _) | (_ & Hlt & Pk)].
    split; [lia | ]. split; [exact Sk | ]. split; [lia | ]. split; [lia | ].
    unfold total_sleep. now rewrite Sk, total_app, total_backoff.
  - destruct Pk as [([=] & _) | (_ & Hlt & Pk)].
    split; [lia | ]. split; [exact Sk | ]. split; [lia | ]. split; [lia | ].
    unfold total_sleep. now rewrite Sk, total_app, total_backoff.
  - destruct Pk as [([=] & _) | (_ & Hlt & Pk)].
    split; [lia | ]. split; [exact Sk | ]. split; [lia | ]. split; [lia | ].
    unfold total_sleep. now rewrite Sk, total_app, total_backoff.
Qed.

(** X6: a transport error on the first attempt and a 200 on the second
    give the response of the second attempt after two posts and one
    sleep of 2^0 seconds. *)
Theorem make_request_second_attempt_succeeds url data retries relogin ignore st e r :
  2 <= retries ->
  responses (posts st) = PostRaises e ->
  is_RequestException e = true ->
  responses (S (posts st)) = PostReturns r ->
  status_code r = 200 ->
  let out := make_request url data retries relogin ignore st in
  fst out = Ok (RResponse r) /\
  posts (snd out) = (posts st + 2)%nat /\
  sleeps (snd out) = sleeps st ++ [seconds 1].
Proof.
  intros Hn Hp He Hp' Hs.
  destruct (make_request_retry_then_success url data retries relogin ignore st e r
              Hn Hp He Hp' Hs) as (st' & E & P & S).
  cbv zeta. rewrite E. cbn [fst snd]. now repeat split.
Qed.

(** ** Further properties of the session manager and the setters *)

(** X7: when every attempt of the login request fails in a way that is
    retried (transport errors, or responses that are not 200, a 401
    among them), [login] posts [max_retries] times, reports the failure,
    returns [None] and leaves the token store as it was. *)
Theorem login_gives_up miner_ip st :
  (forall i, (i < Z.to_nat max_retries)%nat ->
             retriable false [] (responses (posts st + i)%nat) = true) ->
  let out := login miner_ip st in
  fst out = Ok JNone /\
  posts (snd out) = (posts st + Z.to_nat max_retries)%nat /\
  miner_tokens (snd out) = miner_tokens st /\
  [ELog (LLoginFailed miner_ip max_retries); EPrint (LLoginFailed miner_ip max_retries)]
    `suffix_of` trace (snd out).
Proof.
  intros H. cbv zeta. unfold login. rewrite bind_enter.
  destruct (make_request_exhausted (base_url +:+ "/login")
              [("miner_ip", JStr miner_ip)] max_retries false []
              (entered (CLogin miner_ip) st) H) as (st1 & E & P & _).
  pose proof (make_request_tokens (base_url +:+ "/login")
                [("miner_ip", JStr miner_ip)] max_retries false []
                (entered (CLogin miner_ip) st)) as T.
  rewrite E in T. cbn [snd entered enter emit miner_tokens] in T.
  rewrite (bind_ok _ _ _ _ _ E). cbn [result_truthy]. run.
  split; [reflexivity | ]. split; [exact P | ]. split; [exact T | ].
  exists (trace st1). rewrite <- app_assoc. reflexivity.
Qed.

(** The proof is the same for both setters. *)
Ltac gives_up_proof q :=
  intros H; cbv zeta; cbn [set_profile set_curtail]; rewrite bind_enter; cbv beta;
  match goal with
  | |- context [bind (make_request ?u ?d ?n ?b ?i) _ ?s] =>
      destruct (make_request_exhausted u d n b i s H) as (st1 & E & P & _);
      pose proof (make_request_calls q u d n b i s) as C;
      rewrite E in C; cbn [snd] in C; rewrite calls_of_entered in C; eval_b2n C;
      rewrite (bind_ok _ _ _ _ _ E);
      cbn [result_truthy];
      split; [reflexivity | ]; split; [exact P | ];
      split; [change (snd (report ?m st1)) with (reported m st1);
              rewrite calls_of_reported; lia | ];
      exists (trace st1); unfold report, bind, log, print, emit;
      cbn [snd trace]; rewrite <- app_assoc; reflexivity
  end.

(** X8: when every attempt of a setter's request fails in a way that is
    retried, the setter posts [max_retries] times, reports the failure
    and returns normally: it raises nothing and logs in no second time. *)
Theorem setter_gives_up fuel miner_ip token value st :
  (forall i, (i < Z.to_nat max_retries)%nat ->
             retriable true already_in (responses (posts st + i)%nat) = true) ->
  let p := set_profile (S fuel) miner_ip token value st in
  let c := set_curtail (S fuel) miner_ip token value st in
  (fst p = Ok tt /\
   posts (snd p) = (posts st + Z.to_nat max_retries)%nat /\
   calls_of is_login (snd p) = calls_of is_login st /\
   [ELog (LProfileFailed miner_ip max_retries);
    EPrint (LProfileFailed miner_ip max_retries)] `suffix_of` trace (snd p)) /\
  (fst c = Ok tt /\
   posts (snd c) = (posts st + Z.to_nat max_retries)%nat /\
   calls_of is_login (snd c) = calls_of is_login st /\
   [ELog (LCurtailFailed miner_ip max_retries);
    EPrint (LCurtailFailed miner_ip max_retries)] `suffix_of` trace (snd c)).
Proof.
  intros H. split; revert H; gives_up_proof is_login.
Qed.

(** ** Further properties of the device cycle runner *)

Lemma sent_of_app l l' : posts_of (l ++ l') = posts_of l ++ posts_of l'.
Proof. unfold posts_of. apply flat_map_app. Qed.

Ltac sent_eq :=
  unfold sent, advance; cbn [snd trace]; rewrite <- ?app_assoc; cbn [app];
  rewrite ?sent_of_app; cbn [posts_of flat_map app]; rewrite ?app_nil_r;
  reflexivity.

(** The runner, step by step, once the login gave a token. *)
Lemma process_miner_steps fuel miner_ip st token st1 profile mode nt st1'
    rc st2 rp st3 rl st4 :
  login miner_ip (entered (CProcessMiner miner_ip) st) = (Ok token, st1) ->
  truthy token = true ->
  determine_mode st1 = (Ok (profile, mode, nt), st1') ->
  set_curtail fuel miner_ip token mode st1' = (rc, st2) ->
  rc <> OutOfFuel ->
  set_profile fuel miner_ip token profile
    (after_error (LErrCurtail miner_ip) rc st2) = (rp, st3) ->
  rp <> OutOfFuel ->
  logout miner_ip (after_error (LErrProfile miner_ip) rp st3) = (rl, st4) ->
  process_miner fuel miner_ip st
  = (Ok tt, after_error (LErrLogout miner_ip) rl st4).
Proof.
  intros Hlogin Ht Hdm Hc Hrc Hp Hrp Hl.
  assert (Hrl : rl <> OutOfFuel).
  { pose proof (logout_finishes miner_ip
                  (after_error (LErrProfile miner_ip) rp st3)) as F.
    now rewrite Hl in F. }
  unfold process_miner. rewrite bind_enter.
  unfold try_except_Exception at 1. unfold try_except at 1.
  rewrite (bind_ok _ _ _ _ _ Hlogin), Ht.
  unfold try_except_Exception, try_except, bind, ret.
  rewrite Hdm, Hc.
  destruct rc as [[] | ec | ]; [ | | now destruct Hrc];
    cbn [after_error] in Hp; rewrite ?log_run; cbv beta iota; rewrite Hp;
    (destruct rp as [[] | ep | ]; [ | | now destruct Hrp]);
    cbn [after_error] in Hl; rewrite ?log_run; cbv beta iota; rewrite Hl;
    (destruct rl as [[] | el | ]; [ | | now destruct Hrl]); reflexivity.
Qed.

(** What [determine_mode] returns depends on the number of clock
    readings made so far only; it reads the clock twice and changes
    nothing else. *)
Lemma determine_mode_value st st' :
  clock_reads st = clock_reads st' ->
  fst (determine_mode st) = fst (determine_mode st').
Proof.
  intros H. unfold determine_mode, bind, enter, emit, datetime_now.
  cbn [posts clock_reads miner_tokens trace]. rewrite H.
  repeat match goal with
    | |- context [if ?b then _ else _] => destruct b
    end; reflexivity.
Qed.

Lemma determine_mode_state st :
  snd (determine_mode st)
  = {| posts := posts st; clock_reads := S (S (clock_reads st));
       miner_tokens := miner_tokens st;
       trace := trace st ++ [ECall CDetermineMode] |}.
Proof.
  unfold determine_mode, bind, enter, emit, datetime_now.
  cbn [posts clock_reads miner_tokens trace].
  repeat match goal with
    | |- context [if ?b then _ else _] => destruct b
    end; reflexivity.
Qed.

Lemma login_first_success miner_ip st r d :
  0 < max_retries ->
  responses (posts st) = PostReturns r ->
  status_code r = 200 ->
  decoded r = Some (JDict d) ->
  let token := match assoc "token" d with Some t => t | None => JNone end in
  let ttl := match assoc "ttl" d with Some t => t | None => JNone end in
  truthy token = true ->
  login miner_ip st
  = (Ok token,
     {| posts := S (posts st); clock_reads := clock_reads st;
        miner_tokens :=
          <[miner_ip := {| entry_token := token; entry_ttl := ttl |}]> (miner_tokens st);
        trace := trace st ++
          [ECall (CLogin miner_ip);
           ECall (CMakeRequest (base_url +:+ "/login") [("miner_ip", JStr miner_ip)]
                    max_retries false []);
           EPost (base_url +:+ "/login") [("miner_ip", JStr miner_ip)];
           ELog (LStatus 200);
           ELog (LLoginOk miner_ip); EPrint (LLoginOk miner_ip)] |}).
Proof.
  intros Hn Hp Hs Hd token ttl Ht. unfold login. rewrite bind_enter.
  rewrite (bind_ok _ _ _ _ _
             (first_success_run _ _ _ false [] (entered (CLogin miner_ip) st) r Hn Hp Hs)).
  cbn [result_truthy]. rewrite (ok_200_truthy _ Hs).
  unfold response_json, py_get. rewrite Hd. run. fold token. rewrite Ht. run.
  f_equal. trace_eq.
Qed.

Lemma logout_first_success miner_ip st r :
  0 < max_retries ->
  responses (posts st) = PostReturns r ->
  status_code r = 200 ->
  logout miner_ip st
  = (Ok tt,
     {| posts := S (posts st); clock_reads := clock_reads st;
        miner_tokens := delete miner_ip (miner_tokens st);
        trace := trace st ++
          [ECall (CLogout miner_ip);
           ECall (CMakeRequest (base_url +:+ "/logout") [("miner_ip", JStr miner_ip)]
                    max_retries false []);
           EPost (base_url +:+ "/logout") [("miner_ip", JStr miner_ip)];
           ELog (LStatus 200);
           ELog (LLogoutOk miner_ip); EPrint (LLogoutOk miner_ip)] |}).
Proof.
  intros Hn Hp Hs. unfold logout. rewrite bind_enter.
  rewrite (bind_ok _ _ _ _ _
             (first_success_run _ _ _ false [] (entered (CLogout miner_ip) st) r Hn Hp Hs)).
  cbn [result_truthy]. rewrite (ok_200_truthy _ Hs). unfold advance. run. run.
  destruct (miner_tokens st !! miner_ip) as [entry | ] eqn:E; run.
  - f_equal. trace_eq.
  - rewrite (delete_id _ _ E). f_equal. trace_eq.
Qed.

Lemma set_profile_first_success fuel miner_ip token profile st r :
  0 < max_retries ->
  responses (posts st) = PostReturns r ->
  status_code r = 200 ->
  set_profile (S fuel) miner_ip token profile st
  = (Ok tt,
     advance st 1
       [ECall (CSetProfile miner_ip token profile);
        ECall (CMakeRequest (base_url +:+ "/profileset")
                 [("token", token); ("profile", JStr profile)]
                 max_retries true already_in);
        EPost (base_url +:+ "/profileset") [("token", token); ("profile", JStr profile)];
        ELog (LStatus 200);
        ELog (LProfileOk miner_ip profile);
        EPrint (LProfileOk miner_ip profile)]).
Proof.
  intros Hn Hp Hs. cbn [set_profile]. rewrite bind_enter.
  rewrite (bind_ok _ _ _ _ _
             (first_success_run _ _ _ true already_in (entered _ st) r Hn Hp Hs)).
  cbn [result_truthy]. rewrite (ok_200_truthy _ Hs). run. run. f_equal. trace_eq.
Qed.

Lemma set_curtail_first_success fuel miner_ip token mode st r :
  0 < max_retries ->
  responses (posts st) = PostReturns r ->
  status_code r = 200 ->
  set_curtail (S fuel) miner_ip token mode st
  = (Ok tt,
     advance st 1
       [ECall (CSetCurtail miner_ip token mode);
        ECall (CMakeRequest (base_url +:+ "/curtail")
                 [("token", token); ("mode", JStr mode)]
                 max_retries true already_in);
        EPost (base_url +:+ "/curtail") [("token", token); ("mode", JStr mode)];
        ELog (LStatus 200);
        ELog (LCurtailOk miner_ip mode);
        EPrint (LCurtailOk miner_ip mode)]).
Proof.
  intros Hn Hp Hs. cbn [set_curtail]. rewrite bind_enter.
  rewrite (bind_ok _ _ _ _ _
             (first_success_run _ _ _ true already_in (entered _ st) r Hn Hp Hs)).
  cbn [result_truthy]. rewrite (ok_200_truthy _ Hs). run. run. f_equal. trace_eq.
Qed.

(** X9: a cycle in which the login, the two setters and the logout each
    get a 200 at once sends exactly four requests, in the order login,
    curtail, profileset, logout, the setters carrying the token of the
    login and the mode and profile of the hour; it sleeps not, and when
    it ends the token store holds no entry for the miner. *)
Theorem process_miner_smooth_cycle fuel miner_ip st r0 d r1 r2 r3 profile mode nt :
  0 < max_retries ->
  responses (posts st) = PostReturns r0 ->
  status_code r0 = 200 ->
  decoded r0 = Some (JDict d) ->
  let token := match assoc "token" d with Some t => t | None => JNone end in
  truthy token = true ->
  responses (S (posts st)) = PostReturns r1 -> status_code r1 = 200 ->
  responses (S (S (posts st))) = PostReturns r2 -> status_code r2 = 200 ->
  responses (S (S (S (posts st)))) = PostReturns r3 -> status_code r3 = 200 ->
  fst (determine_mode st) = Ok (profile, mode, nt) ->
  let out := process_miner (S fuel) miner_ip st in
  fst out = Ok tt /\
  sent (snd out)
  = sent st ++
    [(base_url +:+ "/login", [("miner_ip", JStr miner_ip)]);
     (base_url +:+ "/curtail", [("token", token); ("mode", JStr mode)]);
     (base_url +:+ "/profileset", [("token", token); ("profile", JStr profile)]);
     (base_url +:+ "/logout", [("miner_ip", JStr miner_ip)])] /\
  sleeps (snd out) = sleeps st /\
  miner_tokens (snd out) = delete miner_ip (miner_tokens st).
Proof.
  intros Hn Hp0 Hs0 Hd token Ht Hp1 Hs1 Hp2 Hs2 Hp3 Hs3 Hv out.
  pose proof (login_first_success miner_ip (entered (CProcessMiner miner_ip) st)
                r0 d Hn Hp0 Hs0 Hd Ht) as L.
  fold token in L.
  match type of L with _ = (_, ?s) => set (s1 := s) in * end.
  assert (Hdm : determine_mode s1
                = (Ok (profile, mode, nt),
                   {| posts := posts s1; clock_reads := S (S (clock_reads s1));
                      miner_tokens := miner_tokens s1;
                      trace := trace s1 ++ [ECall CDetermineMode] |})).
  { rewrite (surjective_pairing (determine_mode s1)).
    rewrite (determine_mode_value s1 st eq_refl), Hv, determine_mode_state.
    reflexivity. }
  match type of Hdm with _ = (_, ?s) => set (s2 := s) in * end.
  pose proof (set_curtail_first_success fuel miner_ip token mode s2 r1 Hn Hp1 Hs1) as C.
  match type of C with _ = (_, ?s) => set (s3 := s) in * end.
  pose proof (set_profile_first_success fuel miner_ip token profile s3 r2 Hn Hp2 Hs2) as P.
  match type of P with _ = (_, ?s) => set (s4 := s) in * end.
  pose proof (logout_first_success miner_ip s4 r3 Hn Hp3 Hs3) as O.
  match type of O with _ = (_, ?s) => set (s5 := s) in * end.
  assert (E : process_miner (S fuel) miner_ip st = (Ok tt, s5)).
  { exact (process_miner_steps (S fuel) miner_ip st token s1 profile mode nt s2
             (Ok tt) s3 (Ok tt) s4 (Ok tt) s5
             L Ht Hdm C ltac:(discriminate) P ltac:(discriminate) O). }
  subst out. rewrite E. cbn [fst snd].
  split; [reflexivity | ]. subst s5 s4 s3 s2 s1.
  unfold entered, enter, emit, advance. cbn [snd posts clock_reads miner_tokens trace].
  split; [sent_eq | ]. split; [sleeps_eq | ].
  apply delete_insert_eq.
Qed.

(** X10: a 200 to the login whose body is no JSON object makes [login]
    raise, [JSONDecodeError] when the body is not JSON and
    [AttributeError] when it is JSON of another kind; [process_miner]
    catches it, logs the error for the miner and returns: after the one
    post no setter and no logout is entered and the token store is as it
    was. *)
Theorem process_miner_bad_login_body fuel miner_ip st r :
  0 < max_retries ->
  responses (posts st) = PostReturns r ->
  status_code r = 200 ->
  (forall d, decoded r <> Some (JDict d)) ->
  let e := match decoded r with None => JSONDecodeError | Some _ => AttributeError end in
  fst (login miner_ip st) = Raise e /\
  let out := process_miner fuel miner_ip st in
  fst out = Ok tt /\
  posts (snd out) = S (posts st) /\
  calls_of is_step (snd out) = calls_of is_step st /\
  miner_tokens (snd out) = miner_tokens st /\
  [ELog (LErrProcessing miner_ip e)] `suffix_of` trace (snd out).
Proof.
  intros Hn Hp Hs Hd e.
  assert (L : forall st0, posts st0 = posts st ->
                login miner_ip st0
                = (Raise e,
                   advance st0 1
                     [ECall (CLogin miner_ip);
                      ECall (CMakeRequest (base_url +:+ "/login")
                               [("miner_ip", JStr miner_ip)] max_retries false []);
                      EPost (base_url +:+ "/login") [("miner_ip", JStr miner_ip)];
                      ELog (LStatus 200)])).
  { intros st0 H0. rewrite <- H0 in Hp. unfold login. rewrite bind_enter.
    rewrite (bind_ok _ _ _ _ _
               (first_success_run _ _ _ false [] (entered (CLogin miner_ip) st0) r
                  Hn Hp Hs)).
    cbn [result_truthy]. rewrite (ok_200_truthy _ Hs).
    unfold response_json, py_get. subst e.
    destruct (decoded r) as [[ | b | n | s | l | d] | ];
      try (now destruct (Hd d)); run; run; f_equal; trace_eq. }
  split; [now rewrite (L st eq_refl) | ].
  assert (E : process_miner fuel miner_ip st
              = (Ok tt,
                 logged (LErrProcessing miner_ip e)
                   (advance (entered (CProcessMiner miner_ip) st) 1
                      [ECall (CLogin miner_ip);
                       ECall (CMakeRequest (base_url +:+ "/login")
                                [("miner_ip", JStr miner_ip)] max_retries false []);
                       EPost (base_url +:+ "/login") [("miner_ip", JStr miner_ip)];
                       ELog (LStatus 200)]))).
  { unfold process_miner. rewrite bind_enter.
    unfold try_except_Exception at 1. unfold try_except.
    rewrite (bind_raise _ _ _ _ _ (L (entered (CProcessMiner miner_ip) st) eq_refl)).
    reflexivity. }
  cbv zeta. rewrite E.
  unfold logged, log, emit, advance, entered, enter, emit.
  cbn [fst snd posts clock_reads miner_tokens trace].
  split; [reflexivity | ]. split; [reflexivity | ]. split; [ | split; [reflexivity | ]].
  - unfold calls_of. cbn [trace]. rewrite !List.filter_app, !List.length_app. cbn. lia.
  - eexists. reflexivity.
Qed.

(** *** Each miner's cycle keeps to its own entry of the token store *)

Lemma post_elsewhere ip url data :
  respects (same_elsewhere ip) (requests_post url data).
Proof.
  intros st other _. unfold requests_post. now destruct (responses (posts st)).
Qed.

Lemma event_elsewhere ip e : respects (same_elsewhere ip) (emit e).
Proof. now intros st other _. Qed.

Lemma now_elsewhere ip : respects (same_elsewhere ip) datetime_now.
Proof. now intros st other _. Qed.

Lemma report_elsewhere ip m : respects (same_elsewhere ip) (report m).
Proof.
  apply (respects_report (same_elsewhere ip) (fun _ => True)).
  intros e _. apply event_elsewhere.
Qed.

Lemma make_request_elsewhere ip url data retries relogin ignore :
  respects (same_elsewhere ip) (make_request url data retries relogin ignore).
Proof.
  apply (make_request_respects (same_elsewhere ip) (fun _ => True)); try exact I.
  - apply post_elsewhere.
  - intros e _. apply event_elsewhere.
Qed.

(** Writing the entry of [ip], then going on. *)
Lemma store_insert_elsewhere {A} ip entry (k : M A) :
  respects (same_elsewhere ip) k ->
  respects (same_elsewhere ip)
    (bind get_tokens (fun tokens =>
       bind (set_tokens (<[ip := entry]> tokens)) (fun _ => k))).
Proof.
  intros Hk st other Hne. unfold bind, get_tokens, set_tokens. cbv beta iota.
  rewrite (Hk _ other Hne). cbn [miner_tokens]. now apply lookup_insert_ne.
Qed.

(** Removing the entry of [ip] if there is one, then going on. *)
Lemma store_delete_elsewhere {A} ip (k : M A) :
  respects (same_elsewhere ip) k ->
  respects (same_elsewhere ip)
    (bind get_tokens (fun tokens =>
       bind (match tokens !! ip with
             | Some _ => set_tokens (delete ip tokens)
             | None => ret tt
             end) (fun _ => k))).
Proof.
  intros Hk st other Hne. unfold bind, get_tokens. cbv beta iota.
  destruct (miner_tokens st !! ip); unfold set_tokens, ret; cbv beta iota;
    rewrite (Hk _ other Hne); cbn [miner_tokens]; [now apply lookup_delete_ne | reflexivity].
Qed.

Ltac elsewhere_step ip :=
  first
    [ apply (event_elsewhere ip)
    | apply (report_elsewhere ip)
    | apply (now_elsewhere ip)
    | apply (make_request_elsewhere ip)
    | apply (store_insert_elsewhere ip); apply respects_bind; [ | intros ? ]
    | respects_step ].

Lemma login_elsewhere ip : respects (same_elsewhere ip) (login ip).
Proof. unfold login. repeat elsewhere_step ip. Qed.

Lemma logout_elsewhere ip : respects (same_elsewhere ip) (logout ip).
Proof.
  unfold logout. apply respects_bind; [apply (event_elsewhere ip) | intros _].
  apply respects_bind; [apply (make_request_elsewhere ip) | intros response].
  destruct (result_truthy response); [ | apply (report_elsewhere ip)].
  apply (store_delete_elsewhere ip). apply report_elsewhere.
Qed.

Lemma set_profile_elsewhere ip fuel token profile :
  respects (same_elsewhere ip) (set_profile fuel ip token profile).
Proof.
  revert token. induction fuel as [ | fuel IH]; intros token; cbn [set_profile].
  - apply respects_out_of_fuel.
  - apply respects_bind; [apply (event_elsewhere ip) | intros _].
    apply respects_bind; [apply (make_request_elsewhere ip) | intros response].
    destruct response; repeat elsewhere_step ip;
      [apply login_elsewhere | apply IH].
Qed.

Lemma set_curtail_elsewhere ip fuel token mode :
  respects (same_elsewhere ip) (set_curtail fuel ip token mode).
Proof.
  revert token. induction fuel as [ | fuel IH]; intros token; cbn [set_curtail].
  - apply respects_out_of_fuel.
  - apply respects_bind; [apply (event_elsewhere ip) | intros _].
    apply respects_bind; [apply (make_request_elsewhere ip) | intros response].
    destruct response; repeat elsewhere_step ip;
      [apply login_elsewhere | apply IH].
Qed.

Lemma determine_mode_elsewhere ip : respects (same_elsewhere ip) determine_mode.
Proof.
  apply (determine_mode_respects (same_elsewhere ip) (fun _ => True)); try exact I.
  - apply now_elsewhere.
  - intros e _. apply event_elsewhere.
Qed.

Lemma process_miner_elsewhere ip fuel :
  respects (same_elsewhere ip) (process_miner fuel ip).
Proof.
  unfold process_miner.
  apply respects_bind; [apply (event_elsewhere ip) | intros _].
  apply respects_try_except_Exception; [ | intros e; apply (event_elsewhere ip)].
  apply respects_bind; [apply login_elsewhere | intros token].
  destruct (truthy token); [ | apply (event_elsewhere ip)].
  apply respects_bind.
  { apply respects_try_except_Exception;
      [ | intros e; apply respects_bind;
                      [apply (event_elsewhere ip) | intros _; apply respects_ret]].
    apply respects_bind; [apply determine_mode_elsewhere | intros [[profile mode] nt]].
    apply respects_try_except_Exception.
    - apply respects_bind; [apply set_curtail_elsewhere | intros _; apply respects_ret].
    - intros e. apply respects_bind;
        [apply (event_elsewhere ip) | intros _; apply respects_ret]. }
  intros profile_var. apply respects_bind.
  { apply respects_try_except_Exception; [ | intros e; apply (event_elsewhere ip)].
    destruct profile_var; [apply set_profile_elsewhere | apply respects_raise]. }
  intros _. apply respects_try_except_Exception;
    [apply logout_elsewhere | intros e; apply (event_elsewhere ip)].
Qed.

(** X11: a cycle for one miner, whatever the replies and whatever is
    raised on the way, leaves the entries of all other miners in the
    token store as they were; a batch leaves alone the entries of the
    miners that are not in its inventory. *)
Theorem token_store_isolation fuel st other :
  (forall miner_ip,
     other <> miner_ip ->
     miner_tokens (snd (process_miner fuel miner_ip st)) !! other
     = miner_tokens st !! other) /\
  (forall ips,
     ~ In other ips ->
     miner_tokens (snd (run_batch fuel ips st)) !! other
     = miner_tokens st !! other).
Proof.
  split.
  - intros miner_ip Hne. exact (process_miner_elsewhere miner_ip fuel st other Hne).
  - intros ips. revert st. induction ips as [ | ip ips IH]; intros st Hin.
    + reflexivity.
    + cbn [run_batch]. unfold bind.
      assert (Hne : other <> ip) by (intros ->; apply Hin; now left).
      pose proof (process_miner_elsewhere ip fuel st other Hne) as H.
      destruct (process_miner fuel ip st) as [[[] | e | ] st1]; cbn [snd] in *;
        try exact H.
      rewrite IH; [exact H | ]. intros Hin'. apply Hin. now right.
Qed.

(** ** Further properties of the schedule resolver and the fleet scheduler *)

(** X12: when the two readings of the clock in [determine_mode] give
    the same instant, the transition returned is the start of the band
    that follows the one of that instant, and it lies strictly after
    it. *)
Theorem determine_mode_next_band (st : state) (now : datetime) :
  clock (clock_reads st) = now ->
  clock (S (clock_reads st)) = now ->
  valid_datetime now ->
  exists profile mode st',
    determine_mode st = (Ok (profile, mode, next_band_start now), st') /\
    to_micros now < to_micros (next_band_start now).
Proof. apply determine_mode_one_instant. Qed.

(** X13: a round of [start] whose batch is done before the transition
    computed at its beginning sleeps for exactly the time left until
    that transition, and goes on with the next round. *)
Theorem start_sleeps_until_transition rounds fuel cycles count st p m nt st1 st2 :
  determine_mode st = (Ok (p, m, nt), st1) ->
  thread_pool_map fuel st1 = (Ok tt, st2) ->
  0 <= micros_between nt (clock (clock_reads st2)) ->
  match cycles with Some n => count + 1 < n | None => True end ->
  exists st3,
    start_loop (S rounds) fuel cycles count st
    = start_loop rounds fuel cycles
        (match cycles with Some _ => count + 1 | None => count end) st3 /\
    sleeps st3 = sleeps st2 ++ [micros_between nt (clock (clock_reads st2))].
Proof. apply start_round_sleeps. Qed.

(** X14: a round of [start] whose batch is done after the transition
    computed at its beginning, and which is not the last round asked
    for, ends [start] with [ValueError]: the length handed to
    [time.sleep] is negative. *)
Theorem start_raises_after_late_batch rounds fuel cycles count st p m nt st1 st2 :
  determine_mode st = (Ok (p, m, nt), st1) ->
  thread_pool_map fuel st1 = (Ok tt, st2) ->
  micros_between nt (clock (clock_reads st2)) < 0 ->
  match cycles with Some n => count + 1 < n | None => True end ->
  fst (start_loop (S rounds) fuel cycles count st) = Raise ValueError.
Proof. apply start_round_late. Qed.


Lemma run_batch_never_raises fuel ips st e :
  fst (run_batch fuel ips st) <> Raise e.
Proof.
  revert st. induction ips as [ | ip ips IH]; intros st; cbn [run_batch].
  - discriminate.
  - unfold bind. pose proof (process_miner_never_raises fuel ip st) as H.
    destruct (process_miner fuel ip st) as [[[] | e' | ] st1]; cbn [fst] in *.
    + apply IH.
    + now destruct (H e').
    + discriminate.
Qed.

(** X16: the only exception [start] ever ends with is [ValueError],
    from a pool size that is not positive or from a negative length
    handed to [time.sleep]: nothing raised while a miner is processed
    reaches the loop. *)
Theorem start_raises_only_ValueError rounds fuel cycles st e :
  fst (start rounds fuel cycles st) = Raise e -> e = ValueError.
Proof.
  unfold start. generalize 0 as count. revert st.
  induction rounds as [ | rounds IH]; intros st count; cbn [start_loop].
  - discriminate.
  - destruct (determine_mode_returns st) as (p & m & nt & st1 & Hdm).
    rewrite (bind_ok _ _ _ _ _ Hdm). cbv beta iota.
    unfold bind at 1. unfold thread_pool_map.
    destruct (max_workers <=? 0); [now intros [= <-] | ].
    pose proof (run_batch_never_raises fuel miner_ips st1) as Hb.
    destruct (run_batch fuel miner_ips st1) as [[[] | e' | ] st2]; cbn [fst] in Hb;
      [ | now destruct (Hb e') | discriminate].
    unfold datetime_now, time_sleep. run.
    destruct cycles as [n | ].
    + destruct (count + 1 >=? n); [discriminate | ].
      destruct (_ <? 0); run; [now intros [= <-] | apply IH].
    + destruct (_ <? 0); run; [now intros [= <-] | apply IH].
Qed.

(** *** What [make_request] can hand back *)

Lemma attempt_return url data retries relogin ignore attempt st v st' :
  make_request_attempt url data retries relogin ignore attempt st
  = (Ok (Return v), st') ->
  (v = RUnauthorized /\ relogin = true) \/
  (exists r, v = RResponse r /\ status_code r = 200) \/
  (exists r, v = RResponse (mark_ignored r) /\ ignore <> []).
Proof.
  unfold make_request_attempt, try_except, make_request_try, bind,
    requests_post, response_json, time_sleep.
  rewrite backoff_nonneg.
  destruct (responses (posts st)) as [e | r]; run.
  - destruct (is_RequestException e); run; intros [=].
  - destruct (status_code r =? 200) eqn:Hs.
    + intros [= <- _]. right. left. exists r. split; [reflexivity | now apply Z.eqb_eq].
    + destruct (decoded r) as [j | ]; run.
      * destruct (py_get j "message" (JStr "")) as [msg | e | ]; run;
          [ | destruct (is_RequestException e); run; intros [=] | intros [=]].
        destruct (py_any_in ignore msg) as [[ | ] | e | ] eqn:Ha; run.
        -- intros [= <- _]. right. right. exists r. split; [reflexivity | ].
           intros ->. discriminate.
        -- destruct (status_code r =? 401); cbn [andb]; [destruct relogin | ];
             run; intros [=]. subst. now left.
        -- destruct (is_RequestException e); run; intros [=].
        -- intros [=].
      * destruct (is_RequestException JSONDecodeError); run; intros [=].
Qed.

(** X17: whatever the replies, a value that [make_request] returns is
    [None], or ['unauthorized'] (with [re_login_on_unauthorized] set
    only), or a response of status 200, or a response marked as ignored
    (with some substring to look for only).  So the value is false for
    the callers exactly when it is [None], and a call with neither flag
    nor substrings, as in [login] and [logout], returns a 200 response
    or [None]. *)
Theorem make_request_results url data retries relogin ignore st v st' :
  make_request url data retries relogin ignore st = (Ok v, st') ->
  (v = RNone \/
   (v = RUnauthorized /\ relogin = true) \/
   (exists r, v = RResponse r /\ status_code r = 200) \/
   (exists r, v = RResponse (mark_ignored r) /\ ignore <> [])) /\
  (result_truthy v = false <-> v = RNone).
Proof.
  intros H.
  assert (C : v = RNone \/
              (v = RUnauthorized /\ relogin = true) \/
              (exists r, v = RResponse r /\ status_code r = 200) \/
              (exists r, v = RResponse (mark_ignored r) /\ ignore <> [])).
  { revert H. unfold make_request. rewrite bind_enter. unfold bind.
    destruct (for_each _ _ _) as [[[ | v0] | e | ] st1] eqn:E; run.
    - intros [= <- _]. now left.
    - intros [= <- _]. right.
      apply for_each_return in E as (x & st0 & st2 & E).
      exact (attempt_return _ _ _ _ _ _ _ _ _ E).
    - intros [=].
    - intros [=]. }
  split; [exact C | ].
  destruct C as [-> | [[-> _] | [(r & -> & Hr) | (r & -> & _)]]]; cbn [result_truthy].
  - now split.
  - split; discriminate.
  - rewrite (ok_200_truthy _ Hr). split; discriminate.
  - split; discriminate.
Qed.

End MinerControlApp.

(** ** Runs on given worlds *)

(** C2: the clock is read twice.  When the first reading is the last
    microsecond of a day and the second one is the midnight that follows,
    the hour 23 selects the last band and the date of the second reading
    is advanced by one day: the transition returned is a full day after
    the start of the next band. *)
Theorem determine_mode_midnight_race :
  let before := Datetime 0 23 59 59 999999 in
  let after := Datetime 1 0 0 0 0 in
  fst (determine_mode (readings [before; after] after) initial_state)
  = Ok ("normal", "sleep", Datetime 2 0 0 0 0) /\
  next_band_start before = Datetime 1 0 0 0 0 /\
  next_band_start after = Datetime 1 6 0 0 0.
Proof. cbv zeta. split; [ | split]; vm_compute; reflexivity. Qed.

(** C5: with one attempt allowed and the network down, [make_request]
    posts once and still sleeps one second before it returns [None],
    although no attempt follows; with the default three attempts it
    sleeps three times, the four seconds after the last attempt
    included. *)
Theorem make_request_sleeps_after_last_attempt :
  let run retries :=
    make_request (script []) true (base_url +:+ "/login")
      [("miner_ip", JStr miner)] retries false [] initial_state in
  fst (run 1) = Ok RNone /\
  posts (snd (run 1)) = 1%nat /\
  sleeps (snd (run 1)) = [seconds 1] /\
  fst (run 3) = Ok RNone /\
  posts (snd (run 3)) = 3%nat /\
  sleeps (snd (run 3)) = [seconds 1; seconds 2; seconds 4].
Proof. cbv zeta. repeat split; vm_compute; reflexivity. Qed.

(** C3: one round of [start] on a batch that ends one second after the
    transition computed before it: the sleep length is minus one second
    and [start] ends with [ValueError] instead of going on. *)
Theorem start_late_batch_raises :
  fst (start smooth_cycle late_clock true [miner] 10 3 2 2 None initial_state)
  = Raise ValueError /\
  fst (start smooth_cycle late_clock true [miner] 10 3 2 2 (Some 2) initial_state)
  = Raise ValueError.
Proof. split; vm_compute; reflexivity. Qed.

(** C1 as stated fails: a device that answers 401 twice makes
    [set_profile] log in twice and send three requests of its own. *)
Lemma set_profile_two_relogins :
  let out :=
    set_profile
      (script [unauthorized_reply; token_reply; unauthorized_reply; token_reply;
               done_reply])
      true 3 3 miner (JStr "stale") "normal" initial_state in
  fst out = Ok tt /\
  calls_of is_login (snd out) = 2%nat /\
  calls_of (is_request_to (base_url +:+ "/profileset")) (snd out) = 3%nat /\
  ~ (calls_of is_login (snd out) <= 1 /\
     calls_of (is_request_to (base_url +:+ "/profileset")) (snd out) <= 2)%nat.
Proof.
  cbv zeta. split; [vm_compute; reflexivity | ].
  split; [vm_compute; reflexivity | ]. split; [vm_compute; reflexivity | ].
  intros [H _]. vm_compute in H. lia.
Qed.

(** ** The theorems at work on given worlds *)

(** The four bands at 05:00, 07:00, 13:00 and 20:00. *)
Lemma determine_mode_bands_witness :
  (exists nt st',
      determine_mode (readings [] (Datetime 0 5 0 0 0)) initial_state
      = (Ok ("overclock", "active", nt), st')) /\
  (exists nt st',
      determine_mode (readings [] (Datetime 0 7 0 0 0)) initial_state
      = (Ok ("normal", "active", nt), st')) /\
  (exists nt st',
      determine_mode (readings [] (Datetime 0 13 0 0 0)) initial_state
      = (Ok ("underclock", "active", nt), st')) /\
  (exists nt st',
      determine_mode (readings [] (Datetime 0 20 0 0 0)) initial_state
      = (Ok ("normal", "sleep", nt), st')).
Proof.
  repeat split.
  - apply (determine_mode_bands (readings [] (Datetime 0 5 0 0 0)) initial_state).
    simpl. lia.
  - apply (determine_mode_bands (readings [] (Datetime 0 7 0 0 0)) initial_state).
    simpl. lia.
  - apply (determine_mode_bands (readings [] (Datetime 0 13 0 0 0)) initial_state).
    simpl. lia.
  - apply (determine_mode_bands (readings [] (Datetime 0 20 0 0 0)) initial_state).
    simpl. lia.
Defined.

(** A 400 saying that the miner already is in the profile asked for. *)
Lemma ignorable_error_ends_first_attempt_witness :
  let out :=
    make_request (script [PostReturns already_response]) true
      (base_url +:+ "/profileset") [("token", JStr "fresh"); ("profile", JStr "normal")]
      3 true already_in initial_state in
  let p :=
    set_profile (script [PostReturns already_response]) true 3 1 miner
      (JStr "fresh") "normal" initial_state in
  fst out = Ok (RResponse (mark_ignored already_response)) /\
  posts (snd out) = 1%nat /\
  sleeps (snd out) = [] /\
  fst p = Ok tt /\
  [ELog (LProfileOk miner "normal"); EPrint (LProfileOk miner "normal")]
    `suffix_of` trace (snd p).
Proof.
  destruct (ignorable_error_ends_first_attempt
              (script [PostReturns already_response]) true 3
              (base_url +:+ "/profileset")
              [("token", JStr "fresh"); ("profile", JStr "normal")]
              3 true already_in initial_state
              already_response already_body already_message)
    as (H1 & H2 & H3 & _ & H5).
  - lia.
  - reflexivity.
  - simpl. lia.
  - reflexivity.
  - reflexivity.
  - exists "Miner is already in". split; [simpl; auto | reflexivity].
  - destruct (H5 ltac:(lia) eq_refl 0%nat miner (JStr "fresh") "normal")
      as (P1 & _ & _ & P4 & _).
    repeat split; assumption.
Defined.


(** A login whose response has a token and no ttl. *)
Lemma login_token_store_witness :
  let out := login (script [token_reply]) true 3 miner initial_state in
  fst out = Ok (JStr "fresh") /\
  miner_tokens (snd out) !! miner
  = Some {| entry_token := JStr "fresh"; entry_ttl := JNone |}.
Proof.
  pose (req := make_request (script [token_reply]) true (base_url +:+ "/login")
                 [("miner_ip", JStr miner)] 3 false []
                 (entered (CLogin miner) initial_state)).
  assert (Hreq : req = (Ok (RResponse (json_response 200 (JDict token_body))), snd req))
    by (vm_compute; reflexivity).
  destruct (login_token_store (script [token_reply]) true 3 miner initial_state
              _ _ Hreq) as [_ H].
  destruct (H (json_response 200 (JDict token_body)) token_body eq_refl eq_refl)
    as [Hstored _].
  destruct (Hstored eq_refl) as (H1 & _ & H3).
  split; [exact H1 | exact (H3 eq_refl)].
Defined.

(** A logout that succeeds while a token is stored. *)
Lemma logout_token_store_witness :
  let st := {| posts := 0; clock_reads := 0;
               miner_tokens := {[ miner := {| entry_token := JStr "fresh";
                                               entry_ttl := JNone |} ]};
               trace := [] |} in
  let out := logout (script [done_reply]) true 3 miner st in
  fst out = Ok tt /\
  miner_tokens (snd out) = delete miner (miner_tokens st).
Proof.
  intros st.
  pose (req := make_request (script [done_reply]) true (base_url +:+ "/logout")
                 [("miner_ip", JStr miner)] 3 false []
                 (entered (CLogout miner) st)).
  assert (Hreq : req = (Ok (RResponse (json_response 200 (JDict []))), snd req))
    by (vm_compute; reflexivity).
  destruct (logout_token_store (script [done_reply]) true 3 miner st _ _ Hreq)
    as [H _].
  destruct (H (json_response 200 (JDict [])) eq_refl) as (H1 & H2 & _).
  split; [exact H1 | exact H2].
Defined.

(** One 401, a login that yields a token, then a 200. *)
Lemma setter_relogin_protocol_witness :
  let world := script [unauthorized_reply; token_reply; done_reply] in
  let out := set_profile world true 3 2 miner (JStr "stale") "normal" initial_state in
  fst out = Ok tt /\
  calls_of is_login (snd out) = 1%nat /\
  calls_of (is_request_to (base_url +:+ "/profileset")) (snd out) = 2%nat.
Proof.
  intros world.
  pose (first := make_request world true (base_url +:+ "/profileset")
                   [("token", JStr "stale"); ("profile", JStr "normal")] 3 true already_in
                   (entered (CSetProfile miner (JStr "stale") "normal") initial_state)).
  assert (H1 : first = (Ok RUnauthorized, snd first)) by (vm_compute; reflexivity).
  pose (relogin := login world true 3 miner
                     (reported (LUnauthorizedToken miner) (snd first))).
  assert (H2 : relogin = (Ok (JStr "fresh"), snd relogin)) by (vm_compute; reflexivity).
  pose (second := make_request world true (base_url +:+ "/profileset")
                    [("token", JStr "fresh"); ("profile", JStr "normal")] 3 true already_in
                    (entered (CSetProfile miner (JStr "fresh") "normal") (snd relogin))).
  assert (H3 : second = (Ok (RResponse (json_response 200 (JDict []))), snd second))
    by (vm_compute; reflexivity).
  destruct (setter_relogin_protocol world true 3 1 miner (JStr "stale") "normal"
              initial_state) as [Hprofile _].
  destruct (Hprofile _ H1 _ _ H2) as (_ & _ & _ & Hretry).
  destruct (Hretry eq_refl) as [_ Hend].
  exact (Hend _ _ H3 ltac:(discriminate) 0%nat eq_refl).
Defined.

(** A cycle in which [set_curtail] raises [TypeError]: [set_profile] and
    [logout] are entered all the same and the runner returns. *)
Lemma process_miner_isolation_witness :
  let world := script [token_reply; odd_reply; done_reply; done_reply] in
  let clock := readings [] (Datetime 0 5 0 0 0) in
  let out := process_miner world clock true 3 1 miner initial_state in
  fst (set_curtail world true 3 1 miner (JStr "fresh") "active"
         (snd (determine_mode clock
                 (snd (login world true 3 miner
                         (entered (CProcessMiner miner) initial_state))))))
  = Raise TypeError /\
  fst out = Ok tt /\
  (0 < calls_of is_set_profile (snd out))%nat /\
  (0 < calls_of is_logout (snd out))%nat.
Proof.
  intros world clock out.
  split; [vm_compute; reflexivity | ].
  destruct (process_miner_isolation world clock true 3 1 miner initial_state)
    as [_ H].
  pose (lg := login world true 3 miner (entered (CProcessMiner miner) initial_state)).
  assert (Hlogin : lg = (Ok (JStr "fresh"), snd lg)) by (vm_compute; reflexivity).
  destruct (H _ _ Hlogin) as [_ Htoken].
  destruct (Htoken eq_refl) as (profile & mode & nt & st1' & Hdm & Hrun).
  assert (Hdm' : determine_mode clock (snd lg)
                 = (Ok ("overclock", "active", Datetime 0 6 0 0 0),
                    snd (determine_mode clock (snd lg))))
    by (vm_compute; reflexivity).
  rewrite Hdm' in Hdm. injection Hdm as <- <- <- <-.
  pose (ct := set_curtail world true 3 1 miner (JStr "fresh") "active"
                (snd (determine_mode clock (snd lg)))).
  assert (Hc : ct = (Raise TypeError, snd ct)) by (vm_compute; reflexivity).
  pose (pf := set_profile world true 3 1 miner (JStr "fresh") "overclock"
                (after_error (LErrCurtail miner) (@Raise unit TypeError) (snd ct))).
  assert (Hp : pf = (Ok tt, snd pf)) by (vm_compute; reflexivity).
  pose (lo := logout world true 3 miner
                (after_error (LErrProfile miner) (Ok tt) (snd pf))).
  assert (Hl : lo = (Ok tt, snd lo)) by (vm_compute; reflexivity).
  destruct (Hrun _ _ Hc ltac:(discriminate) _ _ Hp ltac:(discriminate) _ _ Hl)
    as (E & C1 & C2 & _).
  subst out. split; [now rewrite E | ]. split; lia.
Defined.

(** ** The further properties at work on given worlds *)

(** No attempt allowed: nothing is sent. *)
Lemma make_request_without_attempts_witness :
  make_request smooth_cycle true (base_url +:+ "/login") [("miner_ip", JStr miner)]
    0 false [] initial_state
  = (Ok RNone,
     advance initial_state 0
       [ECall (CMakeRequest (base_url +:+ "/login") [("miner_ip", JStr miner)]
                 0 false []);
        ELog (LRequestGaveUp (base_url +:+ "/login") 0)]) /\
  fst (login smooth_cycle true 0 miner initial_state) = Ok JNone /\
  sent (snd (login smooth_cycle true 0 miner initial_state)) = [].
Proof.
  destruct (make_request_without_attempts smooth_cycle true 0
              (base_url +:+ "/login") [("miner_ip", JStr miner)] 0 false []
              initial_state) as [H1 H2].
  - lia.
  - destruct (H2 ltac:(lia) miner) as (L1 & L2 & _).
    split; [exact H1 | ]. split; [exact L1 | exact L2].
Defined.

(** A 200 at once. *)
Lemma make_request_first_success_witness :
  make_request smooth_cycle true (base_url +:+ "/login") [("miner_ip", JStr miner)]
    3 false [] initial_state
  = (Ok (RResponse (json_response 200 (JDict token_body))),
     advance initial_state 1
       [ECall (CMakeRequest (base_url +:+ "/login") [("miner_ip", JStr miner)]
                 3 false []);
        EPost (base_url +:+ "/login") [("miner_ip", JStr miner)];
        ELog (LStatus 200)]).
Proof.
  apply (make_request_first_success smooth_cycle true).
  - lia.
  - reflexivity.
  - reflexivity.
Defined.


(** A 500 whose message is the number 5. *)
Lemma make_request_malformed_error_body_witness :
  fst (make_request (script [PostReturns odd_response]) true (base_url +:+ "/curtail")
         [("token", JStr "fresh"); ("mode", JStr "sleep")] 3 true already_in
         initial_state)
  = Raise TypeError.
Proof.
  destruct (make_request_malformed_error_body (script [PostReturns odd_response]) true
              (base_url +:+ "/curtail")
              [("token", JStr "fresh"); ("mode", JStr "sleep")] 3 true already_in
              initial_state odd_response (JDict [("message", JInt 5)]))
    as [_ H].
  - lia.
  - reflexivity.
  - simpl. lia.
  - reflexivity.
  - rewrite (H [("message", JInt 5)] (JInt 5) "Miner is already in" []
               eq_refl eq_refl (or_intror (or_intror (ex_intro _ 5 eq_refl))) eq_refl).
    reflexivity.
Defined.

(** A transport error, then a 200. *)
Lemma make_request_second_attempt_succeeds_witness :
  let out := make_request flaky true (base_url +:+ "/login")
               [("miner_ip", JStr miner)] 3 false [] initial_state in
  fst out = Ok (RResponse done_response) /\
  posts (snd out) = 2%nat /\
  sleeps (snd out) = [seconds 1].
Proof.
  apply (make_request_second_attempt_succeeds flaky true (base_url +:+ "/login")
           [("miner_ip", JStr miner)] 3 false [] initial_state
           RequestException done_response).
  - lia.
  - reflexivity.
  - reflexivity.
  - reflexivity.
  - reflexivity.
Defined.

(** A device that answers every login with a 401. *)
Lemma login_gives_up_witness :
  let out := login always_401 true 3 miner initial_state in
  fst out = Ok JNone /\
  posts (snd out) = 3%nat /\
  miner_tokens (snd out) = ∅.
Proof.
  destruct (login_gives_up always_401 true 3 miner initial_state)
    as (H1 & H2 & H3 & _).
  - intros i Hi. destruct i as [ | [ | [ | i]]]; [reflexivity | reflexivity | reflexivity | lia].
  - split; [exact H1 | ]. split; [exact H2 | exact H3].
Defined.

(** A device that answers every request of a setter with a 500. *)
Lemma setter_gives_up_witness :
  let p := set_profile always_500 true 3 1 miner (JStr "fresh") "normal" initial_state in
  fst p = Ok tt /\
  posts (snd p) = 3%nat /\
  calls_of is_login (snd p) = 0%nat.
Proof.
  destruct (setter_gives_up always_500 true 3 0 miner (JStr "fresh") "normal"
              initial_state) as [(H1 & H2 & H3 & _) _].
  - intros i Hi. destruct i as [ | [ | [ | i]]]; [reflexivity | reflexivity | reflexivity | lia].
  - split; [exact H1 | ]. split; [exact H2 | exact H3].
Defined.

(** A cycle at 05:00 in which every request succeeds at once. *)
Lemma process_miner_smooth_cycle_witness :
  let out := process_miner smooth_cycle five_o_clock true 3 1 miner initial_state in
  fst out = Ok tt /\
  sent (snd out)
  = [(base_url +:+ "/login", [("miner_ip", JStr miner)]);
     (base_url +:+ "/curtail", [("token", JStr "fresh"); ("mode", JStr "active")]);
     (base_url +:+ "/profileset", [("token", JStr "fresh"); ("profile", JStr "overclock")]);
     (base_url +:+ "/logout", [("miner_ip", JStr miner)])] /\
  sleeps (snd out) = [] /\
  miner_tokens (snd out) !! miner = None.
Proof.
  destruct (process_miner_smooth_cycle smooth_cycle five_o_clock true 3 0 miner
              initial_state (json_response 200 (JDict token_body)) token_body
              done_response done_response done_response
              "overclock" "active" (Datetime 0 6 0 0 0))
    as (H1 & H2 & H3 & H4).
  - lia.
  - reflexivity.
  - reflexivity.
  - reflexivity.
  - reflexivity.
  - reflexivity.
  - reflexivity.
  - reflexivity.
  - reflexivity.
  - reflexivity.
  - reflexivity.
  - vm_compute. reflexivity.
  - split; [exact H1 | ]. split; [exact H2 | ]. split; [exact H3 | ].
    rewrite H4. apply lookup_delete_eq.
Defined.

(** A login answered with a JSON list. *)
Lemma process_miner_bad_login_body_witness :
  let world := script [PostReturns list_response] in
  fst (login world true 3 miner initial_state) = Raise AttributeError /\
  let out := process_miner world five_o_clock true 3 1 miner initial_state in
  fst out = Ok tt /\
  posts (snd out) = 1%nat /\
  calls_of is_step (snd out) = 0%nat.
Proof.
  intros world.
  destruct (process_miner_bad_login_body world five_o_clock true 3 1 miner
              initial_state list_response) as (H1 & H2 & H3 & H4 & _).
  - lia.
  - reflexivity.
  - reflexivity.
  - intros d. simpl. discriminate.
  - split; [exact H1 | ]. split; [exact H2 | ]. split; [exact H3 | exact H4].
Defined.

(** A cycle for the first miner while a token of the second one is
    stored. *)
Lemma token_store_isolation_witness :
  miner_tokens
    (snd (process_miner smooth_cycle five_o_clock true 3 1 miner one_stored))
  !! second_miner = Some second_entry /\
  miner_tokens
    (snd (run_batch smooth_cycle five_o_clock true 3 1 [miner] one_stored))
  !! second_miner = Some second_entry.
Proof.
  destruct (token_store_isolation smooth_cycle five_o_clock true 3 1 one_stored
              second_miner) as [H1 H2].
  split.
  - rewrite (H1 miner) by (vm_compute; discriminate). apply lookup_singleton_eq.
  - rewrite (H2 [miner]).
    + apply lookup_singleton_eq.
    + simpl. intros [H | []]. vm_compute in H. discriminate H.
Defined.

(** Both readings at 05:00. *)
Lemma determine_mode_next_band_witness :
  exists profile mode st',
    determine_mode five_o_clock initial_state
    = (Ok (profile, mode, Datetime 0 6 0 0 0), st') /\
    to_micros (Datetime 0 5 0 0 0) < to_micros (Datetime 0 6 0 0 0).
Proof.
  apply (determine_mode_next_band five_o_clock initial_state (Datetime 0 5 0 0 0)).
  - reflexivity.
  - reflexivity.
  - unfold valid_datetime. simpl. lia.
Defined.

(** A batch done at 05:00: one hour is left until 06:00. *)
Lemma start_sleeps_until_transition_witness :
  exists st3,
    start_loop smooth_cycle five_o_clock true [miner] 10 3 1 1 None 0 initial_state
    = start_loop smooth_cycle five_o_clock true [miner] 10 3 0 1 None 0 st3 /\
    sleeps st3 = [seconds 3600].
Proof.
  pose (dm := determine_mode five_o_clock initial_state).
  assert (Hdm : dm = (Ok ("overclock", "active", Datetime 0 6 0 0 0), snd dm))
    by (vm_compute; reflexivity).
  pose (batch := thread_pool_map smooth_cycle five_o_clock true [miner] 10 3 1 (snd dm)).
  assert (Hb : batch = (Ok tt, snd batch)) by (vm_compute; reflexivity).
  destruct (start_sleeps_until_transition smooth_cycle five_o_clock true [miner] 10 3
              0 1 None 0 initial_state _ _ _ _ _ Hdm Hb) as (st3 & E & S).
  - vm_compute. discriminate.
  - exact I.
  - exists st3. split; [exact E | ]. rewrite S. vm_compute. reflexivity.
Defined.

(** A batch done one second after 06:00. *)
Lemma start_raises_after_late_batch_witness :
  fst (start_loop smooth_cycle late_clock true [miner] 10 3 1 1 None 0 initial_state)
  = Raise ValueError.
Proof.
  pose (dm := determine_mode late_clock initial_state).
  assert (Hdm : dm = (Ok ("overclock", "active", Datetime 0 6 0 0 0), snd dm))
    by (vm_compute; reflexivity).
  pose (batch := thread_pool_map smooth_cycle late_clock true [miner] 10 3 1 (snd dm)).
  assert (Hb : batch = (Ok tt, snd batch)) by (vm_compute; reflexivity).
  apply (start_raises_after_late_batch smooth_cycle late_clock true [miner] 10 3
           0 1 None 0 initial_state _ _ _ _ _ Hdm Hb).
  - vm_compute. reflexivity.
  - exact I.
Defined.


(** The late batch again: what [start] raises is [ValueError]. *)
Lemma start_raises_only_ValueError_witness :
  fst (start smooth_cycle late_clock true [miner] 10 3 2 1 None initial_state)
  = Raise ValueError /\
  ValueError = ValueError.
Proof.
  assert (H : fst (start smooth_cycle late_clock true [miner] 10 3 2 1 None
                     initial_state) = Raise ValueError)
    by (vm_compute; reflexivity).
  split; [exact H | ].
  exact (start_raises_only_ValueError smooth_cycle late_clock true [miner] 10 3 2 1
           None initial_state ValueError H).
Defined.

(** The value of a call that ends on an ignored error counts as true. *)
Lemma make_request_results_witness :
  let out := make_request (script [PostReturns already_response]) true
               (base_url +:+ "/profileset")
               [("token", JStr "fresh"); ("profile", JStr "normal")]
               3 true already_in initial_state in
  fst out = Ok (RResponse (mark_ignored already_response)) /\
  (result_truthy (RResponse (mark_ignored already_response)) = false <->
   RResponse (mark_ignored already_response) = RNone).
Proof.
  intros out.
  assert (H : out = (Ok (RResponse (mark_ignored already_response)), snd out))
    by (vm_compute; reflexivity).
  split; [now rewrite H | ].
  exact (proj2 (make_request_results (script [PostReturns already_response]) true
                  (base_url +:+ "/profileset")
                  [("token", JStr "fresh"); ("profile", JStr "normal")]
                  3 true already_in initial_state _ _ H)).
Defined.
